(** * useComDOM: the streaming consumer controller

    A shallow embedding of [src/lib/infrastructure/hooks/useComDOM.ts].

    The hook keeps two kinds of mutable data.  React state cells
    ([comDOMStatus], [errors], [pollInterval], [status]) are written
    through their setters and read by the callbacks through the variables
    captured at render time.  Refs ([dataSink], [errorId]) and the arrays
    they point to are read and written in place.  Arrays are JavaScript
    objects, so they live in a store and are handled by reference. *)

From stdpp Require Import base option list gmap strings sorting.
From Stdlib Require Import ZArith NArith Lia.

(** ** Values exchanged with the web-worker wrapper *)

(** What a [catch (error: any)] clause receives: any value can be thrown
    or be the reason of a rejection, [null] and [undefined] included, next
    to plain strings and [Error] objects. *)
Inductive Thrown :=
| ThrownNull
| ThrownUndefined
| ThrownString (s : string)
| ThrownError (message : string) (cause : option string).

(** The values that have no properties. *)
Definition nullish (v : Thrown) : bool :=
  match v with
  | ThrownNull | ThrownUndefined => true
  | _ => false
  end.

(** The [TypeError] raised by reading [property] of [null] or [undefined].
    The wording of its message is the engine's (V8's here). *)
Definition TypeError_reading (v : Thrown) (property : string) : Thrown :=
  ThrownError
    ("Cannot read properties of "
     +:+ (match v with ThrownNull => "null" | _ => "undefined" end)
     +:+ " (reading '" +:+ property +:+ "')")
    None.

(** Result of calling into another component: it returns (an awaited
    promise fulfils) or it throws (an awaited promise rejects). *)
Inductive Outcome (A : Type) :=
| Returned (a : A)
| Threw (error : Thrown).
Arguments Returned {A} a.
Arguments Threw {A} error.

(** The promise an [async] function hands to its caller, once settled. *)
Inductive Settled (A : Type) :=
| Resolved (a : A)
| Rejected (reason : Thrown).
Arguments Resolved {A} a.
Arguments Rejected {A} reason.

(** Run-time content of the [message] and [cause] fields of an error
    entry: [reportError] is handed strings, whole caught values and
    possibly absent properties. *)
Inductive JsField :=
| JsUndefined
| JsString (s : string)
| JsThrown (error : Thrown).

(** [error.message]: reading it throws when [error] is [null] or
    [undefined]; a string has no such property. *)
Definition prop_message (error : Thrown) : Outcome JsField :=
  match error with
  | ThrownNull | ThrownUndefined => Threw (TypeError_reading error "message")
  | ThrownString _ => Returned JsUndefined
  | ThrownError m _ => Returned (JsString m)
  end.

(** [error.cause] *)
Definition prop_cause (error : Thrown) : Outcome JsField :=
  match error with
  | ThrownNull | ThrownUndefined => Threw (TypeError_reading error "cause")
  | ThrownError _ (Some c) => Returned (JsString c)
  | _ => Returned JsUndefined
  end.

Module ComDOMError.
Record t := mk { id : N; message : JsField; cause : JsField }.
End ComDOMError.

Module ComDOMStatus.
(** Modelled from the spec: the enum is declared in
    [web-worker/comdom-wrapper], which is not part of the sources; the
    hook itself names [UNKNOWN], [RUNNING] and [DONE]. *)
Inductive t := UNKNOWN | IDLE | RUNNING | DONE | ERROR.

Definition eqb (a b : t) : bool :=
  match a, b with
  | UNKNOWN, UNKNOWN | IDLE, IDLE | RUNNING, RUNNING
  | DONE, DONE | ERROR, ERROR => true
  | _, _ => false
  end.
End ComDOMStatus.

Module UseComDOMStatus.
Inductive t := STOPPED | PAUSED | RUNNING | DONE | ERROR.

Definition eqb (a b : t) : bool :=
  match a, b with
  | STOPPED, STOPPED | PAUSED, PAUSED | RUNNING, RUNNING
  | DONE, DONE | ERROR, ERROR => true
  | _, _ => false
  end.
End UseComDOMStatus.

(** A JavaScript number used as a timer period. *)
Inductive Interval :=
| Millis (ms : Z)
| Infinity.

Module BatchResponse.
(** Modelled from the spec: [BatchResponse<TData>] is declared in
    [web-worker/comdom-wrapper], which is not part of the sources.  A
    batch is an ordered sequence of records and a flag telling whether more
    will follow; the hook reads them as [data] and [next]. *)
Record t (TData : Type) := mk { data : list TData; next : bool }.
Arguments mk {TData} data next.
Arguments data {TData} _.
Arguments next {TData} _.
End BatchResponse.

Module Wrapper.
(** [IComDOMWrapper<TData>]: the foreground handle of the web worker.
    Its implementation is outside the hook; a wrapper is any state
    machine [W] answering the four calls the hook makes.  [start],
    [getComDOMStatus] and [next] are awaited, [destroy] is called
    synchronously. *)
Class IComDOMWrapper (W TData : Type) := {
  start : W → Outcome bool * W;
  getComDOMStatus : W → Outcome ComDOMStatus.t * W;
  next : W → Outcome (option (BatchResponse.t TData)) * W;
  destroy : W → Outcome bool * W;
}.
End Wrapper.

(** ** The query client *)

Definition QueryKey := list string.

(** The calls the hook makes on the query client, oldest first. *)
Inductive QueryCall :=
| SetQueriesData (key : QueryKey) (data : positive)
| InvalidateQueries (key : QueryKey).

(** The query client is the caching library's object, obtained from the
    context of the component.  What a call on it answers, given the calls
    the hook has made on it before: it returns, or it throws. *)
Class QueryClient := queryClient_answer : list QueryCall → QueryCall → Outcome unit.

(** A client on which every call returns. *)
Definition quiet_client : QueryClient := λ _ _, Returned ().

(** A client that refuses every call. *)
Definition refusing_client : QueryClient :=
  λ _ _, Threw (ThrownError "No QueryClient set" None).

(** ** Hook arguments *)

Record Props := {
  hostname : string;            (* requestURL.hostname *)
  pathname : string;            (* requestURL.pathname *)
  initialData : positive;       (* reference to the array passed in *)
  fetchOnCreate : bool;
  restInterval : Interval;
  fetchInterval : Interval;
}.

Section UseComDOM.
Context {TData W : Type} `{!Wrapper.IComDOMWrapper W TData} `{!QueryClient}.

(** Everything that outlives a render. *)
Record Hook := mkHook {
  heap : gmap positive (list TData);   (* the arrays, by reference *)
  dataSink : positive;                 (* dataSink.current *)
  errorId : N;                         (* errorId.current, a count *)
  comDOMStatus : ComDOMStatus.t;
  errors : list ComDOMError.t;
  pollInterval : Interval;
  status : UseComDOMStatus.t;
  comDOMWrapper : W;
  queryClient : list QueryCall;
}.

(** The variables a callback created by one render closes over. *)
Record Closure := mkClosure {
  props : Props;
  seen_comDOMStatus : ComDOMStatus.t;
  seen_errors : list ComDOMError.t;
  seen_status : UseComDOMStatus.t;
}.

(** One call of the hook function: the callbacks it returns see the
    state cells as they are now.  A callback is meant to be used until the
    next render replaces it. *)
Definition render (p : Props) (s : Hook) : Closure :=
  {| props := p;
     seen_comDOMStatus := comDOMStatus s;
     seen_errors := errors s;
     seen_status := status s |}.

Definition queryKey (c : Closure) : QueryKey :=
  [hostname (props c); pathname (props c)].

(** Content of the array behind a reference (empty for a reference that
    no array was ever stored under). *)
Definition array (s : Hook) (l : positive) : list TData :=
  default [] (heap s !! l).

(** What the consumer reads through [dataSink.current]. *)
Definition sink (s : Hook) : list TData := array s (dataSink s).

(** ** Computations over the hook state *)

Definition M (A : Type) : Type := Hook → Outcome A * Hook.

Definition ret {A} (a : A) : M A := λ s, (Returned a, s).

Definition bind {A B} (m : M A) (k : A → M B) : M B :=
  λ s, match m s with
       | (Returned a, s') => k a s'
       | (Threw e, s') => (Threw e, s')
       end.

Definition throw {A} (e : Thrown) : M A := λ s, (Threw e, s).

(** [try { body } catch (error) { handler }]: writes made by [body]
    before it threw stay. *)
Definition try_catch {A} (body : M A) (handler : Thrown → M A) : M A :=
  λ s, match body s with
       | (Returned a, s') => (Returned a, s')
       | (Threw e, s') => handler e s'
       end.

(** An [async] function: whatever escapes its body rejects the promise. *)
Definition async {A} (body : M (Settled A)) : Hook → Settled A * Hook :=
  λ s, match body s with
       | (Returned r, s') => (r, s')
       | (Threw e, s') => (Rejected e, s')
       end.

(** A call on [comDOMWrapper]. *)
Definition call {A} (f : W → Outcome A * W) : M A :=
  λ s, let (r, w) := f (comDOMWrapper s) in
       (r, mkHook (heap s) (dataSink s) (errorId s) (comDOMStatus s)
             (errors s) (pollInterval s) (status s) w (queryClient s)).

Definition modify (f : Hook → Hook) : M unit := λ s, (Returned tt, f s).

Definition setComDOMStatus (v : ComDOMStatus.t) : M unit :=
  modify (λ s, mkHook (heap s) (dataSink s) (errorId s) v
                 (errors s) (pollInterval s) (status s)
                 (comDOMWrapper s) (queryClient s)).

(** [setErrors(f)]: the updater form receives the latest value. *)
Definition setErrors (f : list ComDOMError.t → list ComDOMError.t) : M unit :=
  modify (λ s, mkHook (heap s) (dataSink s) (errorId s) (comDOMStatus s)
                 (f (errors s)) (pollInterval s) (status s)
                 (comDOMWrapper s) (queryClient s)).

Definition setPollInterval (v : Interval) : M unit :=
  modify (λ s, mkHook (heap s) (dataSink s) (errorId s) (comDOMStatus s)
                 (errors s) v (status s)
                 (comDOMWrapper s) (queryClient s)).

Definition setStatus (v : UseComDOMStatus.t) : M unit :=
  modify (λ s, mkHook (heap s) (dataSink s) (errorId s) (comDOMStatus s)
                 (errors s) (pollInterval s) v
                 (comDOMWrapper s) (queryClient s)).

(** [dataSink.current = l] *)
Definition assign_dataSink (l : positive) : M unit :=
  modify (λ s, mkHook (heap s) l (errorId s) (comDOMStatus s)
                 (errors s) (pollInterval s) (status s)
                 (comDOMWrapper s) (queryClient s)).

(** [dataSink.current], the reference. *)
Definition read_dataSink : M positive := λ s, (Returned (dataSink s), s).

(** [dataSink.current.push(...items)]: the array is extended in place. *)
Definition push_dataSink (items : list TData) : M unit :=
  modify (λ s, mkHook (<[dataSink s := sink s ++ items]> (heap s))
                 (dataSink s) (errorId s) (comDOMStatus s)
                 (errors s) (pollInterval s) (status s)
                 (comDOMWrapper s) (queryClient s)).

(** [errorId.current += 1], giving the new value. *)
Definition next_errorId : M N :=
  λ s, let n := (errorId s + 1)%N in
       (Returned n,
        mkHook (heap s) (dataSink s) n (comDOMStatus s)
          (errors s) (pollInterval s) (status s)
          (comDOMWrapper s) (queryClient s)).

(** A call on [queryClient]: it is made, and returns or throws. *)
Definition queryClient_call (q : QueryCall) : M unit :=
  λ s, (queryClient_answer (queryClient s) q,
        mkHook (heap s) (dataSink s) (errorId s) (comDOMStatus s)
          (errors s) (pollInterval s) (status s)
          (comDOMWrapper s) (queryClient s ++ [q])).

(** The value of an expression that may throw while it is evaluated. *)
Definition evaluate {A} (o : Outcome A) : M A := λ s, (o, s).

Global Instance M_ret : MRet M := λ A, ret.
Global Instance M_bind : MBind M := λ A B k m, bind m k.

(** ** The callbacks of the hook *)

Definition resolveError (id : N) : Hook → Outcome unit * Hook :=
  setErrors (filter (λ error, ComDOMError.id error ≠ id)).

Definition resolveAllErrors : Hook → Outcome unit * Hook :=
  setErrors (λ _, []).

(** The new list is built from the [errors] variable of the closure. *)
Definition reportError (c : Closure) (message cause : JsField) : M unit :=
  n ← next_errorId;
  let error := ComDOMError.mk n message cause in
  setErrors (λ _, seen_errors c ++ [error]).

Definition comDOMStatusQueryFn (c : Closure)
  : Hook → Settled (option ComDOMStatus.t) * Hook :=
  async (try_catch
    (status ← call Wrapper.getComDOMStatus;
     setComDOMStatus status;;
     mret (Resolved (Some status)))
    (λ error,
     reportError c (JsThrown error) (JsString "Error fetching ComDOM status");;
     mret (Resolved None))).

(** On success the promise carries [dataSink.current], the array itself.
    [return Promise.reject(x)] inside the [try] block hands a rejected
    promise to the caller without entering the [catch] clause, which only
    receives what is thrown or what an awaited promise rejects with. *)
Definition queryFn (c : Closure) : Hook → Settled positive * Hook :=
  async (
    if negb (ComDOMStatus.eqb (seen_comDOMStatus c) ComDOMStatus.RUNNING)
       && negb (ComDOMStatus.eqb (seen_comDOMStatus c) ComDOMStatus.DONE)
    then
      mret (Rejected (ThrownString
        "ComDOM Web Worker has not been created or it is not running. The query will not fetch any data"))
    else
      try_catch
        (setStatus UseComDOMStatus.RUNNING;;
         batchResponse ← call Wrapper.next;
         match batchResponse with
         | Some batch =>
             if negb (BatchResponse.next batch) then
               setPollInterval (restInterval (props c));;
               setStatus UseComDOMStatus.DONE;;
               mret (Rejected (ThrownString "ComDOM has finished fetching all data"))
             else
               push_dataSink (BatchResponse.data batch);;
               current ← read_dataSink;
               mret (Resolved current)
         | None =>
             setPollInterval (restInterval (props c));;
             setStatus UseComDOMStatus.DONE;;
             mret (Rejected (ThrownString "ComDOM has finished fetching all data"))
         end)
        (λ error,
         reportError c (JsThrown error)
           (JsString "Error fetching data from background thread");;
         setStatus UseComDOMStatus.ERROR;;
         mret (Rejected error))).

(** [streamURL] is a parameter of the callback; the wrapper was built for
    [requestURL] and is started without arguments. *)
Definition start (c : Closure) (streamURL : option string)
  : Hook → Settled bool * Hook :=
  async (try_catch
    (assign_dataSink (initialData (props c));;
     status ← call Wrapper.start;
     if negb status then throw (ThrownError "Error starting ComDOM" None)
     else
       setPollInterval (fetchInterval (props c));;
       workerStatus ← call Wrapper.getComDOMStatus;
       if ComDOMStatus.eqb workerStatus ComDOMStatus.UNKNOWN
       then throw (ThrownError "Unknown ComDOM Web Worker status" None)
       else
         setComDOMStatus workerStatus;;
         mret (Resolved true))
    (λ error,
     message ← evaluate (prop_message error);
     cause ← evaluate (prop_cause error);
     reportError c message cause;;
     mret (Resolved false))).

(** [destroy] is called outside any [try]. *)
Definition stop (c : Closure) : Hook → Settled bool * Hook :=
  async (
    success ← call Wrapper.destroy;
    (if success : bool then
       setStatus UseComDOMStatus.STOPPED;;
       setPollInterval Infinity
     else
       reportError c (JsString "Error stopping ComDOM")
         (JsString "Error Destroying ComDOM");;
       setStatus UseComDOMStatus.ERROR);;
    queryClient_call (InvalidateQueries (queryKey c ++ ["comdom-status"]));;
    mret (Resolved success)).

Definition pause (c : Closure) : Hook → Outcome bool * Hook :=
  setPollInterval Infinity;;
  if negb (UseComDOMStatus.eqb (seen_status c) UseComDOMStatus.RUNNING)
  then mret false
  else
    setStatus UseComDOMStatus.PAUSED;;
    mret true.

Definition resume (c : Closure) : Hook → Outcome bool * Hook :=
  setStatus UseComDOMStatus.RUNNING;;
  setPollInterval (fetchInterval (props c));;
  mret true.

(** The [try] block either runs to its end ([None]) or its [catch] clause
    returns ([Some]); [return true] follows the block. *)
Definition clean (c : Closure) : Hook → Outcome bool * Hook :=
  r ← try_catch
        (queryClient_call (SetQueriesData (queryKey c) (initialData (props c)));;
         assign_dataSink (initialData (props c));;
         mret None)
        (λ error, mret (Some false));
  match r with
  | Some b => mret b
  | None => mret true
  end.

(** ** Mounting *)

(** The cells and refs as the first render creates them.  [h] holds the
    arrays that exist at that time and [w] is the wrapper just built. *)
Definition mount (p : Props) (h : gmap positive (list TData)) (w : W) : Hook :=
  {| heap := h;
     dataSink := initialData p;
     errorId := 0;
     comDOMStatus := ComDOMStatus.UNKNOWN;
     errors := [];
     pollInterval := if fetchOnCreate p then fetchInterval p else Infinity;
     status := UseComDOMStatus.STOPPED;
     comDOMWrapper := w;
     queryClient := [] |}.

(** The effect run after the first render. *)
Definition mount_effect (p : Props) (s : Hook) : Hook :=
  if fetchOnCreate p then snd (start (render p s) None s) else s.

End UseComDOM.

(** ** Runs of the hook *)

Section Runs.
Context {TData W : Type} `{!Wrapper.IComDOMWrapper W TData} `{!QueryClient}.

(** The functions the hook hands out, with their arguments. *)
Inductive Callback :=
| CallStart (streamURL : option string)
| CallStop
| CallPause
| CallResume
| CallClean
| CallResolveError (id : N)
| CallResolveAllErrors
| CallQueryFn
| CallComDOMStatusQueryFn.

(** State left by one callback, run to completion. *)
Definition invoke (c : @Closure) (f : Callback) (s : @Hook TData W) : Hook :=
  match f with
  | CallStart streamURL => (start c streamURL s).2
  | CallStop => (stop c s).2
  | CallPause => (pause c s).2
  | CallResume => (resume c s).2
  | CallClean => (clean c s).2
  | CallResolveError id => (resolveError id s).2
  | CallResolveAllErrors => (resolveAllErrors s).2
  | CallQueryFn => (queryFn c s).2
  | CallComDOMStatusQueryFn => (comDOMStatusQueryFn c s).2
  end.

(** The states of a mounted hook whose callbacks are each taken from the
    latest render and run one after the other.  The arguments of the hook
    may change from one render to the next. *)
Inductive reachable : @Hook TData W → Prop :=
| reachable_mount p h w : reachable (mount p h w)
| reachable_invoke p f s : reachable s → reachable (invoke (render p s) f s).

(** The identities handed out so far: the counter starts at 0 and every
    report takes its next value. *)
Definition issued (s : @Hook TData W) (i : N) : Prop := (1 ≤ i ≤ errorId s)%N.

(** [s'] has exactly one more error entry than [s], at the end, and its
    identity is new. *)
Definition appends_one (s s' : @Hook TData W) : Prop :=
  ∃ e, errors s' = errors s ++ [e] ∧
       (∀ i, issued s i → (i < ComDOMError.id e)%N) ∧
       (∀ x, x ∈ errors s → (ComDOMError.id x < ComDOMError.id e)%N) ∧
       NoDup (ComDOMError.id <$> errors s').

(** Every entry carries an identity already handed out, and no two
    entries share one. *)
Definition ids_ok (s : @Hook TData W) : Prop :=
  Forall (λ error, issued s (ComDOMError.id error)) (errors s) ∧
  NoDup (ComDOMError.id <$> errors s).

(** Whether the two awaited calls of [start] both go through, and the
    worker status obtained then. *)
Definition started (w : W) : option ComDOMStatus.t :=
  match Wrapper.start w with
  | (Returned true, w1) =>
      match Wrapper.getComDOMStatus w1 with
      | (Returned workerStatus, _) =>
          if ComDOMStatus.eqb workerStatus ComDOMStatus.UNKNOWN then None
          else Some workerStatus
      | (Threw _, _) => None
      end
  | _ => None
  end.

(** How the [try] block of [start] ends: with the worker status it
    stores, or with the value its [catch] clause receives. *)
Inductive StartAttempt :=
| Started (workerStatus : ComDOMStatus.t)
| Caught (error : Thrown).

Definition start_attempt (w : W) : StartAttempt :=
  match Wrapper.start w with
  | (Returned true, w1) =>
      match Wrapper.getComDOMStatus w1 with
      | (Returned workerStatus, _) =>
          if ComDOMStatus.eqb workerStatus ComDOMStatus.UNKNOWN
          then Caught (ThrownError "Unknown ComDOM Web Worker status" None)
          else Started workerStatus
      | (Threw error, _) => Caught error
      end
  | (Returned false, _) => Caught (ThrownError "Error starting ComDOM" None)
  | (Threw error, _) => Caught error
  end.

End Runs.

(** ** A wrapper that replays a script

    Used to run the hook on concrete inputs: every call answers with the
    outcome written in the script, and [next] consumes one scripted answer
    per call. *)
Record Script (TData : Type) := mkScript {
  on_start : Outcome bool;
  on_getComDOMStatus : Outcome ComDOMStatus.t;
  on_next : list (Outcome (option (BatchResponse.t TData)));
  on_destroy : Outcome bool;
}.
Arguments mkScript {TData} _ _ _ _.
Arguments on_start {TData} _.
Arguments on_getComDOMStatus {TData} _.
Arguments on_next {TData} _.
Arguments on_destroy {TData} _.

#[global] Instance Script_wrapper {TData} : Wrapper.IComDOMWrapper (Script TData) TData := {|
  Wrapper.start w := (on_start w, w);
  Wrapper.getComDOMStatus w := (on_getComDOMStatus w, w);
  Wrapper.next w :=
    match on_next w with
    | [] => (Returned None, w)
    | answer :: rest =>
        (answer, mkScript (on_start w) (on_getComDOMStatus w) rest (on_destroy w))
    end;
  Wrapper.destroy w := (on_destroy w, w);
|}.

Module Sample.
#[local] Existing Instance quiet_client.
Definition p : Props :=
  {| hostname := "rucio.example";
     pathname := "/api/list-dids";
     initialData := 1%positive;
     fetchOnCreate := false;
     restInterval := Infinity;
     fetchInterval := Millis 200 |}.

(** A worker that starts, reports [RUNNING], delivers two open batches
    and then the terminal one. *)
Definition healthy : Script nat :=
  mkScript (Returned true) (Returned ComDOMStatus.RUNNING)
    [Returned (Some (BatchResponse.mk [10; 11] true));
     Returned (Some (BatchResponse.mk [] true));
     Returned (Some (BatchResponse.mk [] false))]
    (Returned true).

(** A worker behind an unreachable URL: every call rejects. *)
Definition unreachable : Script nat :=
  mkScript (Threw (ThrownError "Failed to fetch" (Some "network")))
    (Threw (ThrownString "worker terminated"))
    [Threw (ThrownString "worker terminated")]
    (Returned false).

(** A worker whose [destroy] throws. *)
Definition stuck : Script nat :=
  mkScript (Returned true) (Returned ComDOMStatus.RUNNING) []
    (Threw (ThrownError "terminate failed" None)).

(** The caller's initial array is empty. *)
Definition h : gmap positive (list nat) := {[ 1%positive := [] ]}.

Definition fresh (w : Script nat) : Hook := mount p h w.
Definition after_start (w : Script nat) : Hook :=
  (start (render p (fresh w)) None (fresh w)).2.
Definition after_poll (w : Script nat) : Hook :=
  (queryFn (render p (after_start w)) (after_start w)).2.
Definition after_clean (w : Script nat) : Hook :=
  (clean (render p (after_poll w)) (after_poll w)).2.
End Sample.

(** ** Polling in sequence *)

Section Polling.
Context {TData W : Type} `{!Wrapper.IComDOMWrapper W TData} `{!QueryClient}.

(** State left by one poll step taken from the latest render. *)
Definition poll (p : Props) (s : @Hook TData W) : Hook :=
  (queryFn (render p s) s).2.

(** [n] poll steps in a row, each from the render that follows the
    previous one. *)
Fixpoint polls (p : Props) (n : nat) (s : @Hook TData W) : Hook :=
  match n with
  | O => s
  | S n => polls p n (poll p s)
  end.

(** [delivers w batches w']: asked once per element of [batches], the
    wrapper [w] answers with these batches in turn, each announcing more,
    and is [w'] afterwards. *)
Inductive delivers : W → list (BatchResponse.t TData) → W → Prop :=
| delivers_nil w : delivers w [] w
| delivers_cons w batch w1 batches w2 :
    Wrapper.next w = (Returned (Some batch), w1) →
    BatchResponse.next batch = true →
    delivers w1 batches w2 →
    delivers w (batch :: batches) w2.

(** The answers on which [queryFn] declares the stream finished:
    [batchResponse == null || !batchResponse.next]. *)
Definition finished (batchResponse : option (BatchResponse.t TData)) : bool :=
  match batchResponse with
  | None => true
  | Some batch => negb (BatchResponse.next batch)
  end.

(** One callback taken from the latest render and run to completion. *)
Definition step (s s' : @Hook TData W) : Prop :=
  ∃ p f, s' = invoke (render p s) f s.

End Polling.

Module Scenario.
#[local] Existing Instance quiet_client.
(** A worker that accepts [start] and then reports itself idle. *)
Definition idle : Script nat :=
  mkScript (Returned true) (Returned ComDOMStatus.IDLE) [] (Returned true).

(** A worker that accepts [start] and then stops answering. *)
Definition mute : Script nat :=
  mkScript (Returned true) (Threw (ThrownString "worker terminated")) []
    (Returned true).

(** A worker whose only batch is the last one and carries records. *)
Definition last_batch : Script nat :=
  mkScript (Returned true) (Returned ComDOMStatus.RUNNING)
    [Returned (Some (BatchResponse.mk [7; 8] false))] (Returned true).

(** The sample arguments with [fetchOnCreate] switched on. *)
Definition auto : Props :=
  {| hostname := hostname Sample.p;
     pathname := pathname Sample.p;
     initialData := initialData Sample.p;
     fetchOnCreate := true;
     restInterval := restInterval Sample.p;
     fetchInterval := fetchInterval Sample.p |}.

(** The unreachable worker after two failed calls of [start]. *)
Definition failed_once : Hook :=
  invoke (render Sample.p (Sample.fresh Sample.unreachable)) (CallStart None)
    (Sample.fresh Sample.unreachable).
Definition failed_twice : Hook :=
  invoke (render Sample.p failed_once) (CallStart None) failed_once.

(** A worker whose [start] rejects without a reason. *)
Definition reasonless : Script nat :=
  mkScript (Threw ThrownUndefined) (Returned ComDOMStatus.RUNNING) []
    (Returned true).

(** A worker that starts and whose first [next] rejects. *)
Definition breaks : Script nat :=
  mkScript (Returned true) (Returned ComDOMStatus.RUNNING)
    [Threw (ThrownString "worker terminated")] (Returned true).

(** The healthy worker, started, and after its first poll step. *)
Definition running : Hook := Sample.after_start Sample.healthy.
Definition polled : Hook := Sample.after_poll Sample.healthy.

(** The first two batches of the healthy worker and what is left of its
    script after them and after the last answer. *)
Definition first_two : list (BatchResponse.t nat) :=
  [BatchResponse.mk [10; 11] true; BatchResponse.mk [] true].
Definition healthy_after_one : Script nat :=
  mkScript (Returned true) (Returned ComDOMStatus.RUNNING)
    [Returned (Some (BatchResponse.mk [] true));
     Returned (Some (BatchResponse.mk [] false))] (Returned true).
Definition healthy_after_two : Script nat :=
  mkScript (Returned true) (Returned ComDOMStatus.RUNNING)
    [Returned (Some (BatchResponse.mk [] false))] (Returned true).
Definition healthy_drained : Script nat :=
  mkScript (Returned true) (Returned ComDOMStatus.RUNNING) [] (Returned true).
End Scenario.

(** * Properties *)

Section Properties.
Context {TData W : Type} `{!Wrapper.IComDOMWrapper W TData} `{!QueryClient}.
Implicit Types (p : Props) (s : @Hook TData W) (c : @Closure).

Ltac run :=
  unfold start, stop, pause, resume, clean, queryFn, comDOMStatusQueryFn,
    resolveError, resolveAllErrors, reportError, async, try_catch,
    mbind, M_bind, mret, M_ret, bind, ret, throw, call, queryClient_call,
    next_errorId, setComDOMStatus, setErrors, setPollInterval, setStatus,
    assign_dataSink, push_dataSink, read_dataSink, modify, evaluate;
  simpl.

(** Case analysis on the answers of the wrapper. *)
Ltac wrapper_cases :=
  repeat match goal with
  | |- context [Wrapper.start ?w] =>
      destruct (Wrapper.start w) as [[[|]|?] ?]; simpl
  | |- context [Wrapper.getComDOMStatus ?w] =>
      destruct (Wrapper.getComDOMStatus w) as [[[]|?] ?]; simpl
  | |- context [Wrapper.next ?w] =>
      destruct (Wrapper.next w) as [[[[? []]|]|?] ?]; simpl
  | |- context [Wrapper.destroy ?w] =>
      destruct (Wrapper.destroy w) as [[[|]|?] ?]; simpl
  | |- context [queryClient_answer ?made ?q] =>
      destruct (queryClient_answer made q) as [[]|?]; simpl
  | |- context [prop_message ?e] =>
      destruct e as [| | |? []]; simpl
  end.

(** Reading the sink right after a push. *)
Lemma array_insert (hp : gmap positive (list TData)) l v a b cs es pi st w q :
  array (mkHook (<[l := v]> hp) a b cs es pi st w q : @Hook TData W) l = v.
Proof. unfold array; simpl. by rewrite lookup_insert_eq. Qed.

Lemma status_cases (x : ComDOMStatus.t) :
  x = ComDOMStatus.RUNNING ∨ x = ComDOMStatus.DONE →
  negb (ComDOMStatus.eqb x ComDOMStatus.RUNNING)
  && negb (ComDOMStatus.eqb x ComDOMStatus.DONE) = false.
Proof. by intros [-> | ->]. Qed.

Lemma status_idle (x : ComDOMStatus.t) :
  x ≠ ComDOMStatus.RUNNING → x ≠ ComDOMStatus.DONE →
  negb (ComDOMStatus.eqb x ComDOMStatus.RUNNING)
  && negb (ComDOMStatus.eqb x ComDOMStatus.DONE) = true.
Proof. by destruct x. Qed.

(** C3: a poll step made while the worker status held by the hook is
    neither RUNNING nor DONE rejects and leaves the whole hook state as
    it was, hence the sink, the poll interval and the error list. *)
Theorem queryFn_idle_rejects p s :
  comDOMStatus s ≠ ComDOMStatus.RUNNING →
  comDOMStatus s ≠ ComDOMStatus.DONE →
  ∃ reason,
    queryFn (render p s) s = (Rejected reason, s) ∧
    sink (queryFn (render p s) s).2 = sink s ∧
    pollInterval (queryFn (render p s) s).2 = pollInterval s ∧
    errors (queryFn (render p s) s).2 = errors s.
Proof.
  intros Hr Hd. unfold queryFn, async; simpl.
  rewrite (status_idle _ Hr Hd); simpl. eauto.
Qed.

(** C1: a poll step made while the worker status is RUNNING or DONE calls
    [next] once.  A missing batch or a batch whose [next] flag is false
    sets the poll interval to [restInterval] and the status to DONE.  Any
    other batch, an empty one included, is appended to the sink in order;
    the promise then resolves with the sink and the status is RUNNING. *)
Theorem queryFn_poll_step p s :
  comDOMStatus s = ComDOMStatus.RUNNING ∨ comDOMStatus s = ComDOMStatus.DONE →
  comDOMWrapper (queryFn (render p s) s).2 = (Wrapper.next (comDOMWrapper s)).2 ∧
  match (Wrapper.next (comDOMWrapper s)).1 with
  | Returned (Some batch) =>
      if BatchResponse.next batch then
        (queryFn (render p s) s).1 = Resolved (dataSink s) ∧
        dataSink (queryFn (render p s) s).2 = dataSink s ∧
        sink (queryFn (render p s) s).2 = sink s ++ BatchResponse.data batch ∧
        status (queryFn (render p s) s).2 = UseComDOMStatus.RUNNING ∧
        pollInterval (queryFn (render p s) s).2 = pollInterval s
      else
        pollInterval (queryFn (render p s) s).2 = restInterval p ∧
        status (queryFn (render p s) s).2 = UseComDOMStatus.DONE
  | Returned None =>
      pollInterval (queryFn (render p s) s).2 = restInterval p ∧
      status (queryFn (render p s) s).2 = UseComDOMStatus.DONE
  | Threw _ => True
  end.
Proof.
  intros Hs. unfold queryFn, async; simpl.
  rewrite (status_cases _ Hs).
  unfold try_catch, mbind, M_bind, bind, call; simpl.
  destruct (Wrapper.next (comDOMWrapper s)) as [[[batch|]|e] w]; simpl.
  - destruct (BatchResponse.next batch); simpl; [|done].
    unfold sink at 1; simpl. by rewrite array_insert.
  - done.
  - done.
Qed.

(** C5: [pause] always sets the poll interval to Infinity.  When the
    status is RUNNING it becomes PAUSED and the call returns true; in any
    other status the call returns false, the error list and the status
    stay as they were. *)
Theorem pause_spec p s :
  pollInterval (pause (render p s) s).2 = Infinity ∧
  match status s with
  | UseComDOMStatus.RUNNING =>
      (pause (render p s) s).1 = Returned true ∧
      status (pause (render p s) s).2 = UseComDOMStatus.PAUSED
  | _ =>
      (pause (render p s) s).1 = Returned false ∧
      errors (pause (render p s) s).2 = errors s ∧
      status (pause (render p s) s).2 = status s
  end.
Proof.
  unfold pause; simpl. destruct (status s) eqn:E; simpl; by rewrite ?E.
Qed.

(** Case analysis on the two awaited calls of [start] and on the value
    its [catch] clause receives. *)
Ltac start_cases :=
  match goal with
  | |- context [Wrapper.start ?w] =>
      let e := fresh "e" in
      let w1 := fresh "w" in
      destruct (Wrapper.start w) as [[[|]|e] w1]; simpl;
      [ match goal with
        | |- context [Wrapper.getComDOMStatus w1] =>
            let st := fresh "st" in
            let e' := fresh "e" in
            let w2 := fresh "w" in
            destruct (Wrapper.getComDOMStatus w1) as [[st|e'] w2]; simpl;
            [ destruct st; simpl | destruct e' as [| | |? []]; simpl ]
        end
      | | destruct e as [| | |? []]; simpl ]
  end.

(** The ways [start] can end, for any closure: with true, with false and
    a report built from the list the closure saw, or, when the value caught
    is [null] or [undefined], with the [TypeError] of reading its
    [message], nothing being reported. *)
Lemma start_run c streamURL s :
  match start_attempt (comDOMWrapper s) with
  | Started workerStatus =>
      (start c streamURL s).1 = Resolved true ∧
      comDOMStatus (start c streamURL s).2 = workerStatus ∧
      errors (start c streamURL s).2 = errors s ∧
      errorId (start c streamURL s).2 = errorId s
  | Caught error =>
      comDOMStatus (start c streamURL s).2 = comDOMStatus s ∧
      if nullish error then
        (start c streamURL s).1 = Rejected (TypeError_reading error "message") ∧
        errors (start c streamURL s).2 = errors s ∧
        errorId (start c streamURL s).2 = errorId s
      else
        (start c streamURL s).1 = Resolved false ∧
        ∃ message cause,
          prop_message error = Returned message ∧
          prop_cause error = Returned cause ∧
          errors (start c streamURL s).2
          = seen_errors c ++ [ComDOMError.mk (errorId s + 1) message cause] ∧
          errorId (start c streamURL s).2 = (errorId s + 1)%N
  end.
Proof.
  unfold start_attempt. run. start_cases; eauto 10.
Qed.


(** When [destroy] returns and the query client accepts the invalidation:
    [stop] resolves to what [destroy] returned.  On true the status becomes
    STOPPED and the poll interval Infinity; on false an entry with the next
    identity is the last of the error list and the status becomes ERROR.
    Either way the status query is invalidated on the query client. *)
Lemma stop_spec c s (success : bool) w :
  Wrapper.destroy (comDOMWrapper s) = (Returned success, w) →
  queryClient_answer (queryClient s)
    (InvalidateQueries (queryKey c ++ ["comdom-status"])) = Returned () →
  comDOMWrapper (stop c s).2 = w ∧
  (stop c s).1 = Resolved success ∧
  (if success then
     status (stop c s).2 = UseComDOMStatus.STOPPED ∧
     pollInterval (stop c s).2 = Infinity ∧
     errors (stop c s).2 = errors s
   else
     (∃ message cause,
        last (errors (stop c s).2)
        = Some (ComDOMError.mk (errorId s + 1) message cause)) ∧
     status (stop c s).2 = UseComDOMStatus.ERROR) ∧
  queryClient (stop c s).2
  = queryClient s ++ [InvalidateQueries (queryKey c ++ ["comdom-status"])].
Proof.
  intros Hd Hq. unfold queryKey in *. simpl in Hq. run. rewrite Hd.
  destruct success; simpl; rewrite Hq; simpl;
    repeat split; eauto using last_snoc.
Qed.


(** C10: the [streamURL] argument of [start] has no influence: called in
    the same closure on the same state with any two arguments, [start]
    settles the same way and leaves the same state. *)
Theorem start_ignores_streamURL c (url1 url2 : option string) s :
  start c url1 s = start c url2 s.
Proof. reflexivity. Qed.

(** ** The error list *)

(** A report replaces the list by the one its closure saw, extended with
    the new entry; for a callback of the latest render that is the current
    list. *)
Lemma reportError_list c message cause s :
  errors (reportError c message cause s).2
  = seen_errors c ++ [ComDOMError.mk (errorId s + 1) message cause] ∧
  errorId (reportError c message cause s).2 = (errorId s + 1)%N.
Proof. done. Qed.

(** How one callback can change the error list and the counter. *)
Lemma invoke_errors p f s :
  (errors (invoke (render p s) f s) = errors s ∧
   errorId (invoke (render p s) f s) = errorId s)
  ∨ (∃ message cause,
       errors (invoke (render p s) f s)
       = errors s ++ [ComDOMError.mk (errorId s + 1) message cause] ∧
       errorId (invoke (render p s) f s) = (errorId s + 1)%N)
  ∨ (∃ i, errors (invoke (render p s) f s)
          = filter (λ error, ComDOMError.id error ≠ i) (errors s) ∧
          errorId (invoke (render p s) f s) = errorId s)
  ∨ (errors (invoke (render p s) f s) = [] ∧
     errorId (invoke (render p s) f s) = errorId s).
Proof.
  destruct f; unfold invoke; run;
    try (destruct (comDOMStatus s); simpl);
    try (destruct (status s); simpl); wrapper_cases; eauto 8.
Qed.

Lemma ids_ok_append s s' message cause :
  ids_ok s →
  errors s' = errors s ++ [ComDOMError.mk (errorId s + 1) message cause] →
  errorId s' = (errorId s + 1)%N →
  ids_ok s'.
Proof.
  intros [Hall Hnd] He Hn. unfold ids_ok, issued in *. rewrite He, Hn. split.
  - apply Forall_app; split.
    + eapply Forall_impl; [exact Hall|]. simpl; intros; lia.
    + repeat constructor; simpl; lia.
  - rewrite fmap_app. apply NoDup_app; repeat split; [done| |].
    + intros i Hi ->%list_elem_of_singleton.
      apply list_elem_of_fmap in Hi as (x & Hx & Hin).
      rewrite Forall_forall in Hall. apply Hall in Hin. simpl in Hx. lia.
    + simpl. apply NoDup_singleton.
Qed.

Lemma ids_ok_invoke p f s : ids_ok s → ids_ok (invoke (render p s) f s).
Proof.
  intros Hok.
  destruct (invoke_errors p f s)
    as [[He Hn] | [(m & c & He & Hn) | [(i & He & Hn) | [He Hn]]]].
  - unfold ids_ok, issued. by rewrite He, Hn.
  - by eapply ids_ok_append.
  - destruct Hok as [Hall Hnd]. unfold ids_ok, issued. rewrite He, Hn. split.
    + apply Forall_forall. intros x [_ Hx]%list_elem_of_filter.
      rewrite Forall_forall in Hall. by apply Hall.
    + eapply sublist_NoDup; [exact Hnd|].
      apply fmap_sublist, sublist_filter.
  - unfold ids_ok. rewrite He. split; [constructor | simpl; constructor].
Qed.

Lemma reachable_ids_ok s : reachable s → ids_ok s.
Proof.
  induction 1 as [p h w | p f s _ IH].
  - split; simpl; constructor.
  - by apply ids_ok_invoke.
Qed.

Lemma appends_one_intro s s' message cause :
  ids_ok s →
  errors s' = errors s ++ [ComDOMError.mk (errorId s + 1) message cause] →
  errorId s' = (errorId s + 1)%N →
  appends_one s s'.
Proof.
  intros Hok He Hn. eexists; split; [exact He|]. simpl. repeat split.
  - unfold issued; intros; lia.
  - intros x Hx. destruct Hok as [Hall _]. rewrite Forall_forall in Hall.
    apply Hall in Hx. unfold issued in Hx. lia.
  - by destruct (ids_ok_append s s' message cause Hok He Hn).
Qed.

(** Dropping the entries with identity [i] keeps a list in which [i]
    does not occur. *)
Lemma filter_keeps_all (i : N) (l : list ComDOMError.t) :
  i ∉ (ComDOMError.id <$> l) →
  filter (λ error, ComDOMError.id error ≠ i) l = l.
Proof.
  induction l as [|x l IH]; [done|]. simpl.
  intros [Hx Hl]%not_elem_of_cons.
  rewrite filter_cons_True by congruence. by rewrite IH.
Qed.

(** Dropping the entries with identity [i] from a list in which [i]
    occurs once removes that one entry. *)
Lemma filter_removes_one (i : N) (l : list ComDOMError.t) :
  NoDup (ComDOMError.id <$> l) →
  i ∈ (ComDOMError.id <$> l) →
  ∃ l1 e l2,
    l = l1 ++ e :: l2 ∧ ComDOMError.id e = i ∧
    filter (λ error, ComDOMError.id error ≠ i) l = l1 ++ l2.
Proof.
  induction l as [|x l IH]; simpl; intros Hnd Hin.
  - by apply elem_of_nil in Hin.
  - apply NoDup_cons in Hnd as [Hx Hnd].
    destruct (decide (ComDOMError.id x = i)) as [Heq | Hne].
    + exists [], x, l. repeat split; [done|]. simpl.
      rewrite filter_cons_False by (intros Hc; by apply Hc).
      apply filter_keeps_all. by rewrite <- Heq.
    + apply elem_of_cons in Hin as [Hin | Hin]; [congruence|].
      destruct (IH Hnd Hin) as (l1 & e & l2 & -> & He & Hf).
      exists (x :: l1), e, l2. repeat split; [done|].
      rewrite filter_cons_True by done. by rewrite Hf.
Qed.

(** X24: as long as every callback is taken from the latest render and run
    to its end before the next one: in every reachable state, a failed
    status query, a failed poll and a [start] that resolves to false each
    append exactly one error entry whose identity exceeds every identity
    handed out before, so that the identities in the list stay pairwise
    distinct; [resolveError] drops exactly the entry with the given
    identity and [resolveAllErrors] leaves the list empty. *)
Theorem errors_accumulate p s :
  reachable s →
  (∀ error w,
     Wrapper.getComDOMStatus (comDOMWrapper s) = (Threw error, w) →
     appends_one s (comDOMStatusQueryFn (render p s) s).2) ∧
  (∀ error w,
     comDOMStatus s = ComDOMStatus.RUNNING ∨ comDOMStatus s = ComDOMStatus.DONE →
     Wrapper.next (comDOMWrapper s) = (Threw error, w) →
     appends_one s (queryFn (render p s) s).2) ∧
  (∀ streamURL,
     (start (render p s) streamURL s).1 = Resolved false →
     appends_one s (start (render p s) streamURL s).2) ∧
  (∀ i, i ∈ (ComDOMError.id <$> errors s) →
     ∃ l1 e l2,
       errors s = l1 ++ e :: l2 ∧ ComDOMError.id e = i ∧
       errors (resolveError i s).2 = l1 ++ l2) ∧
  errors (resolveAllErrors s).2 = [].
Proof.
  intros Hok%reachable_ids_ok. repeat split.
  - intros error w Hg.
    eapply (appends_one_intro _ _ (JsThrown error)); [done| |];
      run; by rewrite Hg.
  - intros error w Hs Hn.
    eapply (appends_one_intro _ _ (JsThrown error)); [done| |];
      unfold queryFn, async; simpl; rewrite (status_cases _ Hs);
      run; by rewrite Hn.
  - intros streamURL Hf.
    pose proof (start_run (render p s) streamURL s) as Hst.
    destruct (start_attempt (comDOMWrapper s)) as [workerStatus|caught].
    + destruct Hst as [Hr _]. congruence.
    + destruct Hst as [_ Hst]. destruct (nullish caught).
      * destruct Hst as [Hr _]. congruence.
      * destruct Hst as (_ & message & cause & _ & _ & He & Hn).
        by eapply appends_one_intro.
  - intros i Hi. destruct Hok as [_ Hnd].
    destruct (filter_removes_one i (errors s) Hnd Hi) as (l1 & e & l2 & ? & ? & ?).
    exists l1, e, l2. by repeat split.
Qed.

(** X21: [resolveError] with an identity that no entry carries changes
    nothing. *)
Lemma resolveError_absent i s :
  i ∉ (ComDOMError.id <$> errors s) → (resolveError i s).2 = s.
Proof.
  intros Hi. run. rewrite (filter_keeps_all i (errors s) Hi). by destruct s.
Qed.

(** The effect run after the first render leads to a reachable state. *)
Lemma reachable_mount_effect p h w : reachable (mount_effect p (mount p h w)).
Proof.
  unfold mount_effect. destruct (fetchOnCreate p).
  - apply (reachable_invoke p (CallStart None)), reachable_mount.
  - apply reachable_mount.
Qed.

(** The counter never goes back. *)
Lemma errorId_monotone p f s : (errorId s ≤ errorId (invoke (render p s) f s))%N.
Proof.
  destruct (invoke_errors p f s)
    as [[_ ->] | [(? & ? & _ & ->) | [(? & _ & ->) | [_ ->]]]]; lia.
Qed.

(** ** Exceptions *)

(** X12: [start] settles in one of three ways.  It resolves to true when
    both awaited calls go through.  It resolves to false when its [catch]
    clause receives a value other than [null] and [undefined].  When that
    value is [null] or [undefined], reading its [message] throws inside the
    [catch] clause: the promise rejects with that [TypeError] and nothing
    is reported. *)
Theorem start_settles c streamURL s :
  match start_attempt (comDOMWrapper s) with
  | Started _ => (start c streamURL s).1 = Resolved true
  | Caught error =>
      if nullish error then
        (start c streamURL s).1 = Rejected (TypeError_reading error "message") ∧
        errors (start c streamURL s).2 = errors s ∧
        errorId (start c streamURL s).2 = errorId s
      else (start c streamURL s).1 = Resolved false
  end.
Proof.
  pose proof (start_run c streamURL s) as Hst.
  destruct (start_attempt (comDOMWrapper s)) as [workerStatus|caught].
  - by destruct Hst.
  - destruct Hst as [_ Hst]. destruct (nullish caught); [done|by destruct Hst].
Qed.

(** X13: [stop] settles with [destroy]'s result when [destroy] returns, and
    passes on what [destroy] throws: nothing is recorded then. *)
Lemma stop_destroy_throws c s error w :
  Wrapper.destroy (comDOMWrapper s) = (Threw error, w) →
  (stop c s).1 = Rejected error ∧
  errors (stop c s).2 = errors s ∧
  status (stop c s).2 = status s ∧
  queryClient (stop c s).2 = queryClient s.
Proof. intros Hd. run. by rewrite Hd. Qed.

(** ** The sink *)

(** X14: [clean], from any render, asks the query client to store that
    render's [initialData] array.  When the client returns, the sink is
    pointed at that array, so that it reads what the array holds at that
    time, and the call returns true; when the client throws, the sink keeps
    its array and the call returns false.  Either way the arrays, the
    status, the worker status, the poll interval, the error list with its
    counter and the wrapper are left alone. *)
Theorem clean_frame c s :
  heap (clean c s).2 = heap s ∧
  status (clean c s).2 = status s ∧
  comDOMStatus (clean c s).2 = comDOMStatus s ∧
  pollInterval (clean c s).2 = pollInterval s ∧
  errors (clean c s).2 = errors s ∧
  errorId (clean c s).2 = errorId s ∧
  comDOMWrapper (clean c s).2 = comDOMWrapper s ∧
  queryClient (clean c s).2
  = queryClient s ++ [SetQueriesData (queryKey c) (initialData (props c))] ∧
  match queryClient_answer (queryClient s)
          (SetQueriesData (queryKey c) (initialData (props c))) with
  | Returned _ =>
      (clean c s).1 = Returned true ∧
      dataSink (clean c s).2 = initialData (props c) ∧
      sink (clean c s).2 = array s (initialData (props c))
  | Threw _ =>
      (clean c s).1 = Returned false ∧
      dataSink (clean c s).2 = dataSink s ∧
      sink (clean c s).2 = sink s
  end.
Proof.
  run.
  destruct (queryClient_answer (queryClient s)
              (SetQueriesData (queryKey c) (initialData (props c))))
    as [[]|e]; by repeat split.
Qed.

(** X10: only [start] and [clean] assign [dataSink.current]; under every other
    callback the sink keeps its array and what it already held. *)
Lemma sink_kept c f s :
  (∀ streamURL, f ≠ CallStart streamURL) → f ≠ CallClean →
  dataSink (invoke c f s) = dataSink s ∧ sink s `prefix_of` sink (invoke c f s).
Proof.
  intros Hstart Hclean.
  destruct f; try done; try (by destruct (Hstart streamURL));
    unfold invoke; run;
    repeat (first [ progress wrapper_cases
                  | match goal with
                    | |- context [if ?b then _ else _] => destruct b
                    end ]; simpl);
    (split; [done|]);
    first [ unfold sink; simpl; rewrite array_insert; by apply prefix_app_r
          | unfold sink, array; simpl; by exists []; rewrite app_nil_r ].
Qed.

(** X5: when [next] fails in a poll step that has passed the guard,
    whichever render the poll function comes from: the promise rejects with
    the caught value, the counter advances by one, the error list becomes
    the list that render saw followed by a new entry carrying the caught
    value, the status becomes ERROR, and the sink and the poll interval are
    unchanged. *)
Theorem queryFn_failure c s error w :
  seen_comDOMStatus c = ComDOMStatus.RUNNING
  ∨ seen_comDOMStatus c = ComDOMStatus.DONE →
  Wrapper.next (comDOMWrapper s) = (Threw error, w) →
  (queryFn c s).1 = Rejected error ∧
  errorId (queryFn c s).2 = (errorId s + 1)%N ∧
  errors (queryFn c s).2
  = seen_errors c ++ [ComDOMError.mk (errorId s + 1) (JsThrown error)
                        (JsString "Error fetching data from background thread")] ∧
  status (queryFn c s).2 = UseComDOMStatus.ERROR ∧
  sink (queryFn c s).2 = sink s ∧
  pollInterval (queryFn c s).2 = pollInterval s.
Proof.
  intros Hs Hn. unfold queryFn, async; simpl. rewrite (status_cases _ Hs).
  run. by rewrite Hn.
Qed.

(** A poll that appends writes into the very array the sink refers to:
    whoever else holds that reference sees the records too. *)
Lemma queryFn_writes_in_place p s batch w :
  comDOMStatus s = ComDOMStatus.RUNNING ∨ comDOMStatus s = ComDOMStatus.DONE →
  Wrapper.next (comDOMWrapper s) = (Returned (Some batch), w) →
  BatchResponse.next batch = true →
  array (queryFn (render p s) s).2 (dataSink s)
  = array s (dataSink s) ++ BatchResponse.data batch.
Proof.
  intros Hs Hn Hb. unfold queryFn, async; simpl. rewrite (status_cases _ Hs).
  run. rewrite Hn; simpl. rewrite Hb; simpl. by rewrite array_insert.
Qed.

(** X15: when the sink already refers to the [initialData] array, the records
    of an appending poll are still in the sink after [clean]. *)
Lemma clean_after_aliased_poll p s batch w :
  dataSink s = initialData p →
  comDOMStatus s = ComDOMStatus.RUNNING ∨ comDOMStatus s = ComDOMStatus.DONE →
  Wrapper.next (comDOMWrapper s) = (Returned (Some batch), w) →
  BatchResponse.next batch = true →
  sink (clean (render p (queryFn (render p s) s).2) (queryFn (render p s) s).2).2
  = array s (initialData p) ++ BatchResponse.data batch.
Proof.
  intros Ha Hs Hn Hb. unfold queryFn, async; simpl.
  rewrite (status_cases _ Hs). run. rewrite Hn; simpl. rewrite Hb; simpl.
  destruct (queryClient_answer _ _) as [[]|e]; simpl;
    unfold sink, array; simpl; rewrite <- ?Ha; by rewrite lookup_insert_eq.
Qed.

(** ** Pausing and resuming *)

(** X1: pausing a running hook whose timer runs at [fetchInterval] and then
    resuming it gives back the state it had: nothing buffered is lost and
    polling goes on at the same interval. *)
Theorem pause_resume_round_trip p s :
  status s = UseComDOMStatus.RUNNING →
  pollInterval s = fetchInterval p →
  (pause (render p s) s).1 = Returned true ∧
  status (pause (render p s) s).2 = UseComDOMStatus.PAUSED ∧
  pollInterval (pause (render p s) s).2 = Infinity ∧
  resume (render p (pause (render p s) s).2) (pause (render p s) s).2
  = (Returned true, s).
Proof.
  intros Hst Hpi. run. rewrite Hst; simpl. repeat split.
  f_equal. destruct s; simpl in *. by subst.
Qed.

(** X2: [resume] does not look at the worker: on a hook whose stored worker
    status is neither RUNNING nor DONE it still returns true, sets the
    status to RUNNING and arms the timer, and the poll step that follows is
    rejected without changing anything. *)
Theorem resume_without_worker p s :
  comDOMStatus s ≠ ComDOMStatus.RUNNING →
  comDOMStatus s ≠ ComDOMStatus.DONE →
  (resume (render p s) s).1 = Returned true ∧
  status (resume (render p s) s).2 = UseComDOMStatus.RUNNING ∧
  pollInterval (resume (render p s) s).2 = fetchInterval p ∧
  ∃ reason,
    queryFn (render p (resume (render p s) s).2) (resume (render p s) s).2
    = (Rejected reason, (resume (render p s) s).2).
Proof.
  intros Hr Hd. repeat split.
  unfold queryFn, async; simpl. rewrite (status_idle _ Hr Hd); simpl. eauto.
Qed.

(** X3: a poll step that runs on a paused hook still fetches: an open batch is
    appended, the status goes back to RUNNING, and the timer stays off. *)
Theorem poll_while_paused p s batch w :
  status s = UseComDOMStatus.RUNNING →
  comDOMStatus s = ComDOMStatus.RUNNING ∨ comDOMStatus s = ComDOMStatus.DONE →
  Wrapper.next (comDOMWrapper s) = (Returned (Some batch), w) →
  BatchResponse.next batch = true →
  status (pause (render p s) s).2 = UseComDOMStatus.PAUSED ∧
  status (poll p (pause (render p s) s).2) = UseComDOMStatus.RUNNING ∧
  pollInterval (poll p (pause (render p s) s).2) = Infinity ∧
  sink (poll p (pause (render p s) s).2) = sink s ++ BatchResponse.data batch.
Proof.
  intros Hst Hs Hn Hb. unfold poll, pause, queryFn, async; simpl.
  rewrite Hst; simpl. rewrite (status_cases _ Hs). run.
  rewrite Hn; simpl. rewrite Hb; simpl. repeat split.
  unfold sink at 1; simpl. by rewrite array_insert.
Qed.

(** ** The status query *)

(** X4: whatever the wrapper answers, the status query leaves the consumer
    status, the poll interval, the sink with its arrays and the query
    client alone; the stored worker status changes only to the status the
    wrapper returned. *)
Theorem comDOMStatusQueryFn_frame p s :
  status (comDOMStatusQueryFn (render p s) s).2 = status s ∧
  pollInterval (comDOMStatusQueryFn (render p s) s).2 = pollInterval s ∧
  dataSink (comDOMStatusQueryFn (render p s) s).2 = dataSink s ∧
  heap (comDOMStatusQueryFn (render p s) s).2 = heap s ∧
  queryClient (comDOMStatusQueryFn (render p s) s).2 = queryClient s ∧
  comDOMWrapper (comDOMStatusQueryFn (render p s) s).2
  = (Wrapper.getComDOMStatus (comDOMWrapper s)).2 ∧
  match (Wrapper.getComDOMStatus (comDOMWrapper s)).1 with
  | Returned workerStatus =>
      (comDOMStatusQueryFn (render p s) s).1 = Resolved (Some workerStatus) ∧
      comDOMStatus (comDOMStatusQueryFn (render p s) s).2 = workerStatus ∧
      errors (comDOMStatusQueryFn (render p s) s).2 = errors s
  | Threw _ =>
      (comDOMStatusQueryFn (render p s) s).1 = Resolved None ∧
      comDOMStatus (comDOMStatusQueryFn (render p s) s).2 = comDOMStatus s
  end.
Proof.
  run. destruct (Wrapper.getComDOMStatus (comDOMWrapper s)) as [[st|e] w];
    simpl; by repeat split.
Qed.

(** ** The poll step *)

(** The state an appending poll step leaves. *)
Lemma poll_open p s batch w :
  comDOMStatus s = ComDOMStatus.RUNNING ∨ comDOMStatus s = ComDOMStatus.DONE →
  Wrapper.next (comDOMWrapper s) = (Returned (Some batch), w) →
  BatchResponse.next batch = true →
  poll p s
  = mkHook (<[dataSink s := sink s ++ BatchResponse.data batch]> (heap s))
      (dataSink s) (errorId s) (comDOMStatus s) (errors s) (pollInterval s)
      UseComDOMStatus.RUNNING w (queryClient s).
Proof.
  intros Hs Hn Hb. unfold poll, queryFn, async; simpl.
  rewrite (status_cases _ Hs). run. rewrite Hn; simpl. by rewrite Hb.
Qed.

(** The state a poll step leaves when the stream is declared finished. *)
Lemma poll_finished p s answer w :
  comDOMStatus s = ComDOMStatus.RUNNING ∨ comDOMStatus s = ComDOMStatus.DONE →
  Wrapper.next (comDOMWrapper s) = (Returned answer, w) →
  finished answer = true →
  queryFn (render p s) s
  = (Rejected (ThrownString "ComDOM has finished fetching all data"),
     mkHook (heap s) (dataSink s) (errorId s) (comDOMStatus s) (errors s)
       (restInterval p) UseComDOMStatus.DONE w (queryClient s)).
Proof.
  intros Hs Hn Hf. unfold queryFn, async; simpl.
  rewrite (status_cases _ Hs). run. rewrite Hn; simpl.
  destruct answer as [batch|]; simpl in *; [|done]. by rewrite Hf.
Qed.

(** X6: a batch whose [next] flag is false ends the run and its records are
    not appended: the sink and every array stay as they were, no error
    entry is recorded, and the promise rejects with the end-of-data
    message. *)
Theorem queryFn_last_batch_dropped p s batch w :
  comDOMStatus s = ComDOMStatus.RUNNING ∨ comDOMStatus s = ComDOMStatus.DONE →
  Wrapper.next (comDOMWrapper s) = (Returned (Some batch), w) →
  BatchResponse.next batch = false →
  (queryFn (render p s) s).1
  = Rejected (ThrownString "ComDOM has finished fetching all data") ∧
  sink (queryFn (render p s) s).2 = sink s ∧
  heap (queryFn (render p s) s).2 = heap s ∧
  errors (queryFn (render p s) s).2 = errors s ∧
  status (queryFn (render p s) s).2 = UseComDOMStatus.DONE.
Proof.
  intros Hs Hn Hb.
  rewrite (poll_finished p s (Some batch) w Hs Hn) by (simpl; by rewrite Hb).
  done.
Qed.

(** X7: [stop] does not reset the stored worker status, so a poll step taken
    after a successful [stop] passes the guard: it calls [next] on the
    destroyed wrapper and the status does not stay STOPPED. *)
Theorem poll_after_stop p s w :
  comDOMStatus s = ComDOMStatus.RUNNING ∨ comDOMStatus s = ComDOMStatus.DONE →
  Wrapper.destroy (comDOMWrapper s) = (Returned true, w) →
  status (stop (render p s) s).2 = UseComDOMStatus.STOPPED ∧
  comDOMStatus (stop (render p s) s).2 = comDOMStatus s ∧
  comDOMWrapper (poll p (stop (render p s) s).2) = (Wrapper.next w).2 ∧
  status (poll p (stop (render p s) s).2) ≠ UseComDOMStatus.STOPPED.
Proof.
  intros Hs Hd. unfold poll, stop, queryFn, async. run. rewrite Hd; simpl.
  destruct (queryClient_answer _ _) as [[]|e]; simpl;
    rewrite (status_cases _ Hs); run;
    destruct (Wrapper.next w) as [[[[? []]|]|?] ?]; simpl; by repeat split.
Qed.

(** ** Draining a stream *)

Lemma polls_snoc p n s : polls p (n + 1) s = poll p (polls p n s).
Proof. revert s. induction n as [|n IH]; intros s; simpl; [done|]. apply IH. Qed.

(** The state after the batches of a delivery have all been polled. *)
Lemma polls_delivered p s batches w :
  comDOMStatus s = ComDOMStatus.RUNNING ∨ comDOMStatus s = ComDOMStatus.DONE →
  delivers (comDOMWrapper s) batches w →
  batches ≠ [] →
  polls p (length batches) s
  = mkHook
      (<[dataSink s := sink s ++ concat (BatchResponse.data <$> batches)]> (heap s))
      (dataSink s) (errorId s) (comDOMStatus s) (errors s) (pollInterval s)
      UseComDOMStatus.RUNNING w (queryClient s).
Proof.
  intros Hs Hd. revert s Hs Hd.
  induction batches as [|batch batches IH]; intros s Hs Hd Hne; [done|].
  inversion Hd as [|? ? w1 ? ? Hn Hb Hrest]; subst. simpl.
  rewrite (poll_open p s batch w1 Hs Hn Hb).
  destruct batches as [|batch' batches'].
  - inversion Hrest; subst. simpl. by rewrite app_nil_r.
  - rewrite IH; [|done|done|done]. simpl. f_equal.
    unfold sink at 1; simpl. rewrite array_insert.
    rewrite insert_insert_eq. by rewrite <- !app_assoc.
Qed.

(** X8: polling once per delivered batch appends the records of all batches
    to the sink in the order of delivery; the error list, the poll interval
    and the sink reference are untouched. *)
Theorem polls_append_in_order p s batches w :
  comDOMStatus s = ComDOMStatus.RUNNING ∨ comDOMStatus s = ComDOMStatus.DONE →
  delivers (comDOMWrapper s) batches w →
  sink (polls p (length batches) s)
  = sink s ++ concat (BatchResponse.data <$> batches) ∧
  dataSink (polls p (length batches) s) = dataSink s ∧
  comDOMWrapper (polls p (length batches) s) = w ∧
  errors (polls p (length batches) s) = errors s ∧
  pollInterval (polls p (length batches) s) = pollInterval s.
Proof.
  intros Hs Hd. destruct batches as [|batch batches].
  - inversion Hd; subst. simpl. by rewrite app_nil_r.
  - rewrite (polls_delivered p s (batch :: batches) w Hs Hd) by done.
    repeat split. unfold sink at 1. by rewrite array_insert.
Qed.

(** X9: when the delivery is followed by an answer that ends the stream, one
    more poll step leaves all delivered records in the sink, the status
    DONE and the poll interval at [restInterval], with no error entry
    recorded. *)
Theorem polls_drain p s batches w answer w' :
  comDOMStatus s = ComDOMStatus.RUNNING ∨ comDOMStatus s = ComDOMStatus.DONE →
  delivers (comDOMWrapper s) batches w →
  Wrapper.next w = (Returned answer, w') →
  finished answer = true →
  sink (polls p (length batches + 1) s)
  = sink s ++ concat (BatchResponse.data <$> batches) ∧
  status (polls p (length batches + 1) s) = UseComDOMStatus.DONE ∧
  pollInterval (polls p (length batches + 1) s) = restInterval p ∧
  errors (polls p (length batches + 1) s) = errors s.
Proof.
  intros Hs Hd Hn Hf. rewrite polls_snoc.
  destruct batches as [|batch batches].
  - inversion Hd; subst. simpl. unfold poll.
    rewrite (poll_finished p s answer w' Hs Hn Hf). simpl.
    by rewrite app_nil_r.
  - rewrite (polls_delivered p s (batch :: batches) w Hs Hd) by done.
    unfold poll. rewrite (poll_finished p _ answer w'); [|done|done|done].
    simpl. repeat split. unfold sink at 1. by rewrite array_insert.
Qed.

(** ** What the callbacks leave alone *)

(** X11: no callback writes into an array other than the one the sink refers
    to, and only the poll step writes into an array at all. *)
Theorem arrays_frame c f s :
  (f ≠ CallQueryFn → heap (invoke c f s) = heap s) ∧
  (∀ l, l ≠ dataSink s → array (invoke c f s) l = array s l).
Proof.
  split.
  - intros Hf. destruct f; try done; unfold invoke; run;
      repeat (first [ progress wrapper_cases
                    | match goal with
                      | |- context [if ?b then _ else _] => destruct b
                      end ]; simpl); done.
  - intros l Hl. destruct f; unfold invoke; run;
      repeat (first [ progress wrapper_cases
                    | match goal with
                      | |- context [if ?b then _ else _] => destruct b
                      end ]; simpl);
      try done.
    unfold array; simpl. by rewrite lookup_insert_ne.
Qed.

(** ** Starting *)

(** X17: [start] arms the timer as soon as the wrapper's [start] has returned
    true, also when the call then fails on the worker status; when the
    wrapper's [start] itself fails the poll interval is unchanged. *)
Theorem start_pollInterval p streamURL s :
  match (Wrapper.start (comDOMWrapper s)).1 with
  | Returned true =>
      pollInterval (start (render p s) streamURL s).2 = fetchInterval p
  | _ => pollInterval (start (render p s) streamURL s).2 = pollInterval s
  end.
Proof. run. start_cases; done. Qed.

(** X18: [start] resolves to true for any worker status other than UNKNOWN, but
    the poll step that follows goes through only when that status is
    RUNNING or DONE; for IDLE or ERROR it is rejected and changes nothing. *)
Theorem poll_after_start p streamURL s workerStatus :
  started (comDOMWrapper s) = Some workerStatus →
  (start (render p s) streamURL s).1 = Resolved true ∧
  if ComDOMStatus.eqb workerStatus ComDOMStatus.RUNNING
     || ComDOMStatus.eqb workerStatus ComDOMStatus.DONE
  then
    comDOMWrapper (poll p (start (render p s) streamURL s).2)
    = (Wrapper.next (comDOMWrapper (start (render p s) streamURL s).2)).2
  else
    ∃ reason,
      queryFn (render p (start (render p s) streamURL s).2)
        (start (render p s) streamURL s).2
      = (Rejected reason, (start (render p s) streamURL s).2).
Proof.
  unfold started, poll. run.
  start_cases; try done; intros [= <-]; simpl; split; try done; eauto;
    match goal with
    | |- context [Wrapper.next ?w] =>
        by destruct (Wrapper.next w) as [[[[? []]|]|?] ?]
    end.
Qed.

(** After [start] the sink reads what the [initialData] array holds at
    that time. *)
Lemma start_sink p streamURL s :
  sink (start (render p s) streamURL s).2 = array s (initialData p).
Proof. run. start_cases; done. Qed.

(** X16: once a poll step has appended into the [initialData] array, calling
    [start] again does not empty the sink either, whether the call
    succeeds or fails. *)
Theorem start_after_aliased_poll p streamURL s batch w :
  dataSink s = initialData p →
  comDOMStatus s = ComDOMStatus.RUNNING ∨ comDOMStatus s = ComDOMStatus.DONE →
  Wrapper.next (comDOMWrapper s) = (Returned (Some batch), w) →
  BatchResponse.next batch = true →
  sink (start (render p (poll p s)) streamURL (poll p s)).2
  = array s (initialData p) ++ BatchResponse.data batch.
Proof.
  intros Ha Hs Hn Hb. rewrite start_sink. unfold poll.
  rewrite <- Ha. by eapply queryFn_writes_in_place.
Qed.

(** ** Order and reuse of identities *)

Lemma filter_sorted (i : N) (l : list ComDOMError.t) :
  StronglySorted N.lt (ComDOMError.id <$> l) →
  StronglySorted N.lt
    (ComDOMError.id <$> filter (λ error, ComDOMError.id error ≠ i) l).
Proof.
  induction l as [|x l IH]; simpl; intros Hs; [constructor|].
  apply StronglySorted_cons in Hs as [Hall Hs].
  rewrite filter_cons. destruct (decide (ComDOMError.id x ≠ i)); [|by apply IH].
  rewrite fmap_cons. apply StronglySorted_cons. split; [|by apply IH].
  apply Forall_forall. intros y (e & -> & [_ He]%list_elem_of_filter)%list_elem_of_fmap.
  rewrite Forall_forall in Hall. apply Hall. by apply list_elem_of_fmap_2.
Qed.

(** X19: in every reachable state the error list is in strictly increasing
    order of identity: entries appear in the order they were reported,
    whatever was resolved in between. *)
Theorem reachable_errors_sorted s :
  reachable s → StronglySorted N.lt (ComDOMError.id <$> errors s).
Proof.
  induction 1 as [p h w | p f s Hr IH]; [constructor|].
  pose proof (reachable_ids_ok s Hr) as [Hall _].
  destruct (invoke_errors p f s)
    as [[-> _] | [(m & c & -> & _) | [(i & -> & _) | [-> _]]]].
  - done.
  - rewrite fmap_app. apply StronglySorted_app. repeat split.
    + intros x1 x2 (e & -> & He)%list_elem_of_fmap ->%list_elem_of_singleton.
      rewrite Forall_forall in Hall. apply Hall in He. unfold issued in He.
      simpl. lia.
    + done.
    + repeat constructor.
  - by apply filter_sorted.
  - constructor.
Qed.

(** An identity that has been handed out and is not in the list stays out
    of it under any callback. *)
Lemma retired_step i s s' :
  step s s' →
  (i ≤ errorId s)%N ∧ i ∉ (ComDOMError.id <$> errors s) →
  (i ≤ errorId s')%N ∧ i ∉ (ComDOMError.id <$> errors s').
Proof.
  intros (p & f & ->) [Hle Hout].
  destruct (invoke_errors p f s)
    as [[-> ->] | [(m & c & -> & ->) | [(j & -> & ->) | [-> ->]]]].
  - done.
  - split; [lia|]. rewrite fmap_app. simpl.
    intros [Hin | ->%list_elem_of_singleton]%elem_of_app; [done | lia].
  - split; [done|].
    intros (e & -> & [_ He]%list_elem_of_filter)%list_elem_of_fmap.
    apply Hout. by apply list_elem_of_fmap_2.
  - split; [done|]. simpl. apply not_elem_of_nil.
Qed.

(** X20: an identity is never used twice: once the entry carrying it has been
    resolved, no sequence of callbacks brings an entry with that identity
    into the list again. *)
Theorem resolved_id_not_reused i s s' :
  reachable s →
  i ∈ (ComDOMError.id <$> errors s) →
  rtc step (resolveError i s).2 s' →
  i ∉ (ComDOMError.id <$> errors s').
Proof.
  intros Hr Hi Hsteps.
  assert (Hstart : (i ≤ errorId (resolveError i s).2)%N
                   ∧ i ∉ (ComDOMError.id <$> errors (resolveError i s).2)).
  { destruct (reachable_ids_ok s Hr) as [Hall _]. split.
    - apply list_elem_of_fmap in Hi as (e & -> & He).
      rewrite Forall_forall in Hall. apply Hall in He.
      unfold issued in He. simpl. lia.
    - simpl. intros (e & -> & [He _]%list_elem_of_filter)%list_elem_of_fmap.
      by apply He. }
  clear Hr Hi. revert Hstart.
  induction Hsteps as [s0 | s0 s1 s2 Hstep _ IH]; intros Hinv; [by destruct Hinv|].
  apply IH. by eapply retired_step.
Qed.

(** ** A callback used twice *)

(** A failed [start], for any closure: the list becomes the one the
    closure saw plus the new entry. *)
Lemma start_failure_closure c streamURL s :
  (start c streamURL s).1 = Resolved false →
  ∃ message cause,
    errors (start c streamURL s).2
    = seen_errors c ++ [ComDOMError.mk (errorId s + 1) message cause] ∧
    errorId (start c streamURL s).2 = (errorId s + 1)%N.
Proof.
  intros Hf. pose proof (start_run c streamURL s) as Hst.
  destruct (start_attempt (comDOMWrapper s)) as [workerStatus|caught].
  - destruct Hst as [Hr _]. congruence.
  - destruct Hst as [_ Hst]. destruct (nullish caught).
    + destruct Hst as [Hr _]. congruence.
    + destruct Hst as (_ & message & cause & _ & _ & He & Hn). eauto.
Qed.

(** X23: when the [start] function of one render is called twice and fails
    both times, the second report is built from the list that render saw:
    the entry of the first failure is no longer in the list, although the
    counter has advanced twice. *)
Theorem start_twice_same_closure c streamURL s :
  (start c streamURL s).1 = Resolved false →
  (start c streamURL (start c streamURL s).2).1 = Resolved false →
  ∃ message1 cause1 message2 cause2,
    errors (start c streamURL s).2
    = seen_errors c ++ [ComDOMError.mk (errorId s + 1) message1 cause1] ∧
    errors (start c streamURL (start c streamURL s).2).2
    = seen_errors c ++ [ComDOMError.mk (errorId s + 2) message2 cause2].
Proof.
  intros H1 H2.
  destruct (start_failure_closure c streamURL s H1) as (m1 & c1 & He1 & Hn1).
  destruct (start_failure_closure c streamURL _ H2) as (m2 & c2 & He2 & Hn2).
  exists m1, c1, m2, c2. split; [exact He1|].
  rewrite He2, Hn1. by replace (errorId s + 1 + 1)%N with (errorId s + 2)%N by lia.
Qed.

(** ** Mounting with [fetchOnCreate] *)

(** X22: when the start made by the mount effect does not succeed, whether
    it resolves to false or rejects, the state it leaves has the timer
    running at [fetchInterval], the status STOPPED and the worker status
    UNKNOWN; a poll step taken in that state is rejected and changes
    nothing. *)
Theorem mount_effect_failed p h w :
  fetchOnCreate p = true →
  started w = None →
  pollInterval (mount_effect p (mount p h w)) = fetchInterval p ∧
  status (mount_effect p (mount p h w)) = UseComDOMStatus.STOPPED ∧
  comDOMStatus (mount_effect p (mount p h w)) = ComDOMStatus.UNKNOWN ∧
  ∃ reason,
    queryFn (render p (mount_effect p (mount p h w))) (mount_effect p (mount p h w))
    = (Rejected reason, mount_effect p (mount p h w)).
Proof.
  unfold mount_effect, mount, started. intros -> Hw. revert Hw. run.
  start_cases; try done; eauto 8.
Qed.

End Properties.

(** * Concrete runs *)

#[local] Existing Instance quiet_client.

(** The healthy worker drained: two appending polls and the terminal one
    leave the records in the sink, the status DONE and the poll interval at
    [restInterval]. *)
Example drain_healthy :
  let s1 := Sample.after_poll Sample.healthy in
  let s2 := (queryFn (render Sample.p s1) s1).2 in
  let s3 := (queryFn (render Sample.p s2) s2).2 in
  sink s3 = [10; 11] ∧ status s3 = UseComDOMStatus.DONE ∧
  pollInterval s3 = Infinity.
Proof. repeat split; vm_compute; reflexivity. Qed.

(** [queryFn_poll_step] on a started hook whose worker delivers the batch
    [10; 11] with more to come. *)
Lemma queryFn_poll_step_witness :
  (comDOMStatus (Sample.after_start Sample.healthy) = ComDOMStatus.RUNNING
   ∨ comDOMStatus (Sample.after_start Sample.healthy) = ComDOMStatus.DONE) ∧
  sink (Sample.after_poll Sample.healthy) = [10; 11] ∧
  status (Sample.after_poll Sample.healthy) = UseComDOMStatus.RUNNING.
Proof.
  assert (Hs : comDOMStatus (Sample.after_start Sample.healthy) = ComDOMStatus.RUNNING
               ∨ comDOMStatus (Sample.after_start Sample.healthy) = ComDOMStatus.DONE)
    by (left; reflexivity).
  split; [exact Hs|].
  destruct (queryFn_poll_step Sample.p (Sample.after_start Sample.healthy) Hs)
    as [_ Hbatch].
  simpl in Hbatch. destruct Hbatch as (_ & _ & Hsink & Hstatus & _).
  split; [exact Hsink | exact Hstatus].
Defined.

(** [queryFn_idle_rejects] on a hook that was never started. *)
Lemma queryFn_idle_rejects_witness :
  comDOMStatus (Sample.fresh Sample.healthy) ≠ ComDOMStatus.RUNNING ∧
  comDOMStatus (Sample.fresh Sample.healthy) ≠ ComDOMStatus.DONE ∧
  ∃ reason,
    queryFn (render Sample.p (Sample.fresh Sample.healthy)) (Sample.fresh Sample.healthy)
    = (Rejected reason, Sample.fresh Sample.healthy) ∧
    sink (queryFn (render Sample.p (Sample.fresh Sample.healthy))
            (Sample.fresh Sample.healthy)).2
    = sink (Sample.fresh Sample.healthy) ∧
    pollInterval (queryFn (render Sample.p (Sample.fresh Sample.healthy))
                    (Sample.fresh Sample.healthy)).2
    = pollInterval (Sample.fresh Sample.healthy) ∧
    errors (queryFn (render Sample.p (Sample.fresh Sample.healthy))
              (Sample.fresh Sample.healthy)).2
    = errors (Sample.fresh Sample.healthy).
Proof.
  assert (Hr : comDOMStatus (Sample.fresh Sample.healthy) ≠ ComDOMStatus.RUNNING)
    by (simpl; discriminate).
  assert (Hd : comDOMStatus (Sample.fresh Sample.healthy) ≠ ComDOMStatus.DONE)
    by (simpl; discriminate).
  split; [exact Hr|]. split; [exact Hd|].
  exact (queryFn_idle_rejects Sample.p (Sample.fresh Sample.healthy) Hr Hd).
Defined.




(** [errors_accumulate] on the freshly mounted hook of the unreachable
    worker: the failed [start] appends one entry. *)
Lemma errors_accumulate_witness :
  reachable (Sample.fresh Sample.unreachable) ∧
  appends_one (Sample.fresh Sample.unreachable)
    (start (render Sample.p (Sample.fresh Sample.unreachable)) None
       (Sample.fresh Sample.unreachable)).2.
Proof.
  assert (Hr : reachable (Sample.fresh Sample.unreachable))
    by apply reachable_mount.
  split; [exact Hr|].
  destruct (errors_accumulate Sample.p (Sample.fresh Sample.unreachable) Hr)
    as (_ & _ & Hstart & _).
  apply Hstart. reflexivity.
Defined.

(** C8: with a wrapper whose [destroy] throws, the promise of [stop]
    rejects with the thrown value instead of resolving to a boolean; no
    error entry is recorded and the status stays STOPPED. *)
Theorem stop_rejects_when_destroy_throws :
  stop (render Sample.p (Sample.fresh Sample.stuck)) (Sample.fresh Sample.stuck)
  = (Rejected (ThrownError "terminate failed" None), Sample.fresh Sample.stuck).
Proof. reflexivity. Qed.

(** C9: the caller passes the same, initially empty, array on every render.
    After a successful [start] and a poll that delivers [10; 11], [clean]
    leaves the sink holding [10; 11]: the poll wrote into the caller's array,
    and [clean] points the sink at that array again. *)
Theorem clean_after_poll_keeps_records :
  array (Sample.fresh Sample.healthy) (initialData Sample.p) = [] ∧
  sink (Sample.after_poll Sample.healthy) = [10; 11] ∧
  (clean (render Sample.p (Sample.after_poll Sample.healthy))
     (Sample.after_poll Sample.healthy)).1 = Returned true ∧
  sink (Sample.after_clean Sample.healthy) = [10; 11].
Proof. repeat split; vm_compute; reflexivity. Qed.

(** C4: with a wrapper whose [destroy] throws, as in C8, the destruction
    has failed and [stop] does none of what it does for a failure: the
    promise does not resolve to false, no error entry is recorded, the status
    is not ERROR and the status query is not invalidated on the query
    client. *)
Theorem stop_skips_failure_path_when_destroy_throws :
  (Wrapper.destroy (comDOMWrapper (Sample.fresh Sample.stuck))).1
  = Threw (ThrownError "terminate failed" None) ∧
  (stop (render Sample.p (Sample.fresh Sample.stuck)) (Sample.fresh Sample.stuck)).1
  ≠ Resolved false ∧
  errors (stop (render Sample.p (Sample.fresh Sample.stuck))
            (Sample.fresh Sample.stuck)).2 = [] ∧
  status (stop (render Sample.p (Sample.fresh Sample.stuck))
            (Sample.fresh Sample.stuck)).2 ≠ UseComDOMStatus.ERROR ∧
  queryClient (stop (render Sample.p (Sample.fresh Sample.stuck))
                 (Sample.fresh Sample.stuck)).2 = [].
Proof. repeat split; simpl; discriminate. Qed.

(** C7: the status query and [start] of the first render both fail on the
    unreachable worker, one after the other.  The first failure leaves one
    entry, with identity 1.  The second one builds its list from the empty
    list the render saw: the error list then holds the entry with identity
    2 alone, instead of one entry more than before. *)
Theorem second_report_of_a_render_replaces_the_first :
  errors (comDOMStatusQueryFn (render Sample.p (Sample.fresh Sample.unreachable))
            (Sample.fresh Sample.unreachable)).2
  = [ComDOMError.mk 1 (JsThrown (ThrownString "worker terminated"))
       (JsString "Error fetching ComDOM status")] ∧
  (start (render Sample.p (Sample.fresh Sample.unreachable)) None
     (comDOMStatusQueryFn (render Sample.p (Sample.fresh Sample.unreachable))
        (Sample.fresh Sample.unreachable)).2).1 = Resolved false ∧
  errors (start (render Sample.p (Sample.fresh Sample.unreachable)) None
            (comDOMStatusQueryFn (render Sample.p (Sample.fresh Sample.unreachable))
               (Sample.fresh Sample.unreachable)).2).2
  = [ComDOMError.mk 2 (JsString "Failed to fetch") (JsString "network")].
Proof. repeat split. Qed.

(** * Further concrete runs *)

Lemma queryFn_failure_witness :
  (seen_comDOMStatus (render Sample.p (Sample.after_start Scenario.breaks))
   = ComDOMStatus.RUNNING
   ∨ seen_comDOMStatus (render Sample.p (Sample.after_start Scenario.breaks))
     = ComDOMStatus.DONE) ∧
  Wrapper.next (comDOMWrapper (Sample.after_start Scenario.breaks))
  = (Threw (ThrownString "worker terminated"), Scenario.healthy_drained) ∧
  status (queryFn (render Sample.p (Sample.after_start Scenario.breaks))
            (Sample.after_start Scenario.breaks)).2 = UseComDOMStatus.ERROR.
Proof.
  assert (Hs : seen_comDOMStatus (render Sample.p (Sample.after_start Scenario.breaks))
               = ComDOMStatus.RUNNING
               ∨ seen_comDOMStatus (render Sample.p (Sample.after_start Scenario.breaks))
                 = ComDOMStatus.DONE)
    by (left; reflexivity).
  assert (Hn : Wrapper.next (comDOMWrapper (Sample.after_start Scenario.breaks))
               = (Threw (ThrownString "worker terminated"), Scenario.healthy_drained))
    by reflexivity.
  split; [exact Hs|]. split; [exact Hn|].
  destruct (queryFn_failure _ _ _ _ Hs Hn) as (_ & _ & _ & Hst & _).
  exact Hst.
Defined.

Lemma sink_kept_witness :
  (∀ streamURL, CallPause ≠ CallStart streamURL) ∧ CallPause ≠ CallClean ∧
  dataSink (invoke (render Sample.p Scenario.polled) CallPause Scenario.polled)
  = dataSink Scenario.polled ∧
  (sink Scenario.polled
   `prefix_of` sink (invoke (render Sample.p Scenario.polled) CallPause Scenario.polled)).
Proof.
  assert (H1 : ∀ streamURL, CallPause ≠ CallStart streamURL) by discriminate.
  assert (H2 : CallPause ≠ CallClean) by discriminate.
  split; [exact H1|]. split; [exact H2|].
  exact (sink_kept (render Sample.p Scenario.polled) CallPause Scenario.polled H1 H2).
Defined.

Lemma stop_destroy_throws_witness :
  Wrapper.destroy (comDOMWrapper (Sample.fresh Sample.stuck))
  = (Threw (ThrownError "terminate failed" None), Sample.stuck) ∧
  (stop (render Sample.p (Sample.fresh Sample.stuck)) (Sample.fresh Sample.stuck)).1
  = Rejected (ThrownError "terminate failed" None).
Proof.
  assert (Hd : Wrapper.destroy (comDOMWrapper (Sample.fresh Sample.stuck))
               = (Threw (ThrownError "terminate failed" None), Sample.stuck))
    by reflexivity.
  split; [exact Hd|].
  exact (proj1 (stop_destroy_throws (render Sample.p (Sample.fresh Sample.stuck))
                  _ _ _ Hd)).
Defined.

Lemma clean_after_aliased_poll_witness :
  dataSink Scenario.running = initialData Sample.p ∧
  (comDOMStatus Scenario.running = ComDOMStatus.RUNNING
   ∨ comDOMStatus Scenario.running = ComDOMStatus.DONE) ∧
  sink (clean (render Sample.p (queryFn (render Sample.p Scenario.running)
                                  Scenario.running).2)
          (queryFn (render Sample.p Scenario.running) Scenario.running).2).2
  = array Scenario.running (initialData Sample.p) ++ [10; 11].
Proof.
  assert (Ha : dataSink Scenario.running = initialData Sample.p) by reflexivity.
  assert (Hs : comDOMStatus Scenario.running = ComDOMStatus.RUNNING
               ∨ comDOMStatus Scenario.running = ComDOMStatus.DONE)
    by (left; reflexivity).
  split; [exact Ha|]. split; [exact Hs|].
  exact (clean_after_aliased_poll Sample.p Scenario.running
           (BatchResponse.mk [10; 11] true) _ Ha Hs eq_refl eq_refl).
Defined.

Lemma resolveError_absent_witness :
(5%N ∉ (ComDOMError.id <$> errors Scenario.failed_twice)) ∧
  (resolveError 5 Scenario.failed_twice).2 = Scenario.failed_twice.
Proof.
  assert (Hi : 5%N ∉ (ComDOMError.id <$> errors Scenario.failed_twice)).
  { simpl. intros [H | [H | H]%elem_of_cons]%elem_of_cons;
      [discriminate | discriminate | by apply elem_of_nil in H]. }
  split; [exact Hi|].
  exact (resolveError_absent 5 Scenario.failed_twice Hi).
Defined.

Lemma pause_resume_round_trip_witness :
  status Scenario.polled = UseComDOMStatus.RUNNING ∧
  pollInterval Scenario.polled = fetchInterval Sample.p ∧
  resume (render Sample.p (pause (render Sample.p Scenario.polled) Scenario.polled).2)
    (pause (render Sample.p Scenario.polled) Scenario.polled).2
  = (Returned true, Scenario.polled).
Proof.
  assert (Hst : status Scenario.polled = UseComDOMStatus.RUNNING) by reflexivity.
  assert (Hpi : pollInterval Scenario.polled = fetchInterval Sample.p)
    by reflexivity.
  split; [exact Hst|]. split; [exact Hpi|].
  exact (proj2 (proj2 (proj2 (pause_resume_round_trip Sample.p Scenario.polled
                                Hst Hpi)))).
Defined.

Lemma resume_without_worker_witness :
  comDOMStatus (Sample.fresh Sample.healthy) ≠ ComDOMStatus.RUNNING ∧
  comDOMStatus (Sample.fresh Sample.healthy) ≠ ComDOMStatus.DONE ∧
  status (resume (render Sample.p (Sample.fresh Sample.healthy))
            (Sample.fresh Sample.healthy)).2 = UseComDOMStatus.RUNNING.
Proof.
  assert (Hr : comDOMStatus (Sample.fresh Sample.healthy) ≠ ComDOMStatus.RUNNING)
    by (simpl; discriminate).
  assert (Hd : comDOMStatus (Sample.fresh Sample.healthy) ≠ ComDOMStatus.DONE)
    by (simpl; discriminate).
  split; [exact Hr|]. split; [exact Hd|].
  exact (proj1 (proj2 (resume_without_worker Sample.p _ Hr Hd))).
Defined.

Lemma poll_while_paused_witness :
  status Scenario.running = UseComDOMStatus.STOPPED ∧
  status Scenario.polled = UseComDOMStatus.RUNNING ∧
  (comDOMStatus Scenario.polled = ComDOMStatus.RUNNING
   ∨ comDOMStatus Scenario.polled = ComDOMStatus.DONE) ∧
  status (poll Sample.p (pause (render Sample.p Scenario.polled) Scenario.polled).2)
  = UseComDOMStatus.RUNNING ∧
  pollInterval (poll Sample.p (pause (render Sample.p Scenario.polled) Scenario.polled).2)
  = Infinity.
Proof.
  assert (Hst : status Scenario.polled = UseComDOMStatus.RUNNING) by reflexivity.
  assert (Hs : comDOMStatus Scenario.polled = ComDOMStatus.RUNNING
               ∨ comDOMStatus Scenario.polled = ComDOMStatus.DONE)
    by (left; reflexivity).
  assert (Hn : Wrapper.next (comDOMWrapper Scenario.polled)
               = (Returned (Some (BatchResponse.mk [] true)),
                  Scenario.healthy_after_two)) by reflexivity.
  split; [reflexivity|]. split; [exact Hst|]. split; [exact Hs|].
  destruct (poll_while_paused Sample.p Scenario.polled (BatchResponse.mk [] true)
              Scenario.healthy_after_two Hst Hs Hn eq_refl)
    as (_ & H1 & H2 & _).
  split; [exact H1 | exact H2].
Defined.

Lemma queryFn_last_batch_dropped_witness :
  (comDOMStatus (Sample.after_start Scenario.last_batch) = ComDOMStatus.RUNNING
   ∨ comDOMStatus (Sample.after_start Scenario.last_batch) = ComDOMStatus.DONE) ∧
  Wrapper.next (comDOMWrapper (Sample.after_start Scenario.last_batch))
  = (Returned (Some (BatchResponse.mk [7; 8] false)), Scenario.healthy_drained) ∧
  sink (queryFn (render Sample.p (Sample.after_start Scenario.last_batch))
          (Sample.after_start Scenario.last_batch)).2
  = sink (Sample.after_start Scenario.last_batch).
Proof.
  assert (Hs : comDOMStatus (Sample.after_start Scenario.last_batch) = ComDOMStatus.RUNNING
               ∨ comDOMStatus (Sample.after_start Scenario.last_batch) = ComDOMStatus.DONE)
    by (left; reflexivity).
  assert (Hn : Wrapper.next (comDOMWrapper (Sample.after_start Scenario.last_batch))
               = (Returned (Some (BatchResponse.mk [7; 8] false)),
                  Scenario.healthy_drained)) by reflexivity.
  split; [exact Hs|]. split; [exact Hn|].
  exact (proj1 (proj2 (queryFn_last_batch_dropped Sample.p _ _ _ Hs Hn eq_refl))).
Defined.

Lemma poll_after_stop_witness :
  (comDOMStatus Scenario.running = ComDOMStatus.RUNNING
   ∨ comDOMStatus Scenario.running = ComDOMStatus.DONE) ∧
  Wrapper.destroy (comDOMWrapper Scenario.running) = (Returned true, Sample.healthy) ∧
  status (stop (render Sample.p Scenario.running) Scenario.running).2
  = UseComDOMStatus.STOPPED ∧
  comDOMStatus (stop (render Sample.p Scenario.running) Scenario.running).2
  = comDOMStatus Scenario.running.
Proof.
  assert (Hs : comDOMStatus Scenario.running = ComDOMStatus.RUNNING
               ∨ comDOMStatus Scenario.running = ComDOMStatus.DONE)
    by (left; reflexivity).
  assert (Hd : Wrapper.destroy (comDOMWrapper Scenario.running)
               = (Returned true, Sample.healthy)) by reflexivity.
  split; [exact Hs|]. split; [exact Hd|].
  destruct (poll_after_stop Sample.p Scenario.running Sample.healthy Hs Hd)
    as (H1 & H2 & _).
  split; [exact H1 | exact H2].
Defined.

(** The first two batches of the healthy worker, as a delivery. *)
Lemma healthy_delivers_two :
  delivers (comDOMWrapper Scenario.running) Scenario.first_two
    Scenario.healthy_after_two.
Proof.
  apply (delivers_cons _ _ Scenario.healthy_after_one); [reflexivity..|].
  apply (delivers_cons _ _ Scenario.healthy_after_two); [reflexivity..|].
  apply delivers_nil.
Defined.

Lemma polls_append_in_order_witness :
  (comDOMStatus Scenario.running = ComDOMStatus.RUNNING
   ∨ comDOMStatus Scenario.running = ComDOMStatus.DONE) ∧
  delivers (comDOMWrapper Scenario.running) Scenario.first_two
    Scenario.healthy_after_two ∧
  sink (polls Sample.p (length Scenario.first_two) Scenario.running)
  = sink Scenario.running ++ concat (BatchResponse.data <$> Scenario.first_two).
Proof.
  assert (Hs : comDOMStatus Scenario.running = ComDOMStatus.RUNNING
               ∨ comDOMStatus Scenario.running = ComDOMStatus.DONE)
    by (left; reflexivity).
  split; [exact Hs|]. split; [exact healthy_delivers_two|].
  exact (proj1 (polls_append_in_order Sample.p Scenario.running Scenario.first_two
                  Scenario.healthy_after_two Hs healthy_delivers_two)).
Defined.

Lemma polls_drain_witness :
  (comDOMStatus Scenario.running = ComDOMStatus.RUNNING
   ∨ comDOMStatus Scenario.running = ComDOMStatus.DONE) ∧
  Wrapper.next Scenario.healthy_after_two
  = (Returned (Some (BatchResponse.mk [] false)), Scenario.healthy_drained) ∧
  status (polls Sample.p (length Scenario.first_two + 1) Scenario.running)
  = UseComDOMStatus.DONE ∧
  pollInterval (polls Sample.p (length Scenario.first_two + 1) Scenario.running)
  = restInterval Sample.p.
Proof.
  assert (Hs : comDOMStatus Scenario.running = ComDOMStatus.RUNNING
               ∨ comDOMStatus Scenario.running = ComDOMStatus.DONE)
    by (left; reflexivity).
  assert (Hn : Wrapper.next Scenario.healthy_after_two
               = (Returned (Some (BatchResponse.mk [] false)),
                  Scenario.healthy_drained)) by reflexivity.
  split; [exact Hs|]. split; [exact Hn|].
  destruct (polls_drain Sample.p Scenario.running Scenario.first_two
              Scenario.healthy_after_two _ _ Hs healthy_delivers_two Hn eq_refl)
    as (_ & H1 & H2 & _).
  split; [exact H1 | exact H2].
Defined.

Lemma poll_after_start_witness :
  started (comDOMWrapper (Sample.fresh Scenario.idle)) = Some ComDOMStatus.IDLE ∧
  (start (render Sample.p (Sample.fresh Scenario.idle)) None
     (Sample.fresh Scenario.idle)).1 = Resolved true.
Proof.
  assert (Hst : started (comDOMWrapper (Sample.fresh Scenario.idle))
                = Some ComDOMStatus.IDLE) by reflexivity.
  split; [exact Hst|].
  exact (proj1 (poll_after_start Sample.p None (Sample.fresh Scenario.idle)
                  ComDOMStatus.IDLE Hst)).
Defined.

Lemma start_after_aliased_poll_witness :
  dataSink Scenario.running = initialData Sample.p ∧
  (comDOMStatus Scenario.running = ComDOMStatus.RUNNING
   ∨ comDOMStatus Scenario.running = ComDOMStatus.DONE) ∧
  sink (start (render Sample.p (poll Sample.p Scenario.running)) None
          (poll Sample.p Scenario.running)).2
  = array Scenario.running (initialData Sample.p) ++ [10; 11].
Proof.
  assert (Ha : dataSink Scenario.running = initialData Sample.p) by reflexivity.
  assert (Hs : comDOMStatus Scenario.running = ComDOMStatus.RUNNING
               ∨ comDOMStatus Scenario.running = ComDOMStatus.DONE)
    by (left; reflexivity).
  assert (Hn : Wrapper.next (comDOMWrapper Scenario.running)
               = (Returned (Some (BatchResponse.mk [10; 11] true)),
                  Scenario.healthy_after_one)) by reflexivity.
  split; [exact Ha|]. split; [exact Hs|].
  exact (start_after_aliased_poll Sample.p None Scenario.running
           (BatchResponse.mk [10; 11] true) Scenario.healthy_after_one
           Ha Hs Hn eq_refl).
Defined.

(** The hook of the unreachable worker after two failed starts. *)
Lemma failed_twice_reachable : reachable Scenario.failed_twice.
Proof. do 2 apply reachable_invoke. apply reachable_mount. Defined.

Lemma reachable_errors_sorted_witness :
  reachable Scenario.failed_twice ∧
  length (errors Scenario.failed_twice) = 2 ∧
  StronglySorted N.lt (ComDOMError.id <$> errors Scenario.failed_twice).
Proof.
  split; [exact failed_twice_reachable|]. split; [reflexivity|].
  exact (reachable_errors_sorted Scenario.failed_twice failed_twice_reachable).
Defined.

Lemma resolved_id_not_reused_witness :
  reachable Scenario.failed_twice ∧
  2%N ∈ (ComDOMError.id <$> errors Scenario.failed_twice) ∧
  rtc step (resolveError 2 Scenario.failed_twice).2
    (invoke (render Sample.p (resolveError 2 Scenario.failed_twice).2)
       (CallStart None) (resolveError 2 Scenario.failed_twice).2) ∧
  (2%N ∉ (ComDOMError.id <$>
            errors (invoke (render Sample.p (resolveError 2 Scenario.failed_twice).2)
                      (CallStart None) (resolveError 2 Scenario.failed_twice).2))).
Proof.
  assert (Hi : 2%N ∈ (ComDOMError.id <$> errors Scenario.failed_twice)).
  { simpl. apply elem_of_cons. right. apply elem_of_cons. by left. }
  assert (Hsteps : rtc step (resolveError 2 Scenario.failed_twice).2
            (invoke (render Sample.p (resolveError 2 Scenario.failed_twice).2)
               (CallStart None) (resolveError 2 Scenario.failed_twice).2)).
  { apply rtc_once. exists Sample.p, (CallStart None). reflexivity. }
  split; [exact failed_twice_reachable|]. split; [exact Hi|].
  split; [exact Hsteps|].
  exact (resolved_id_not_reused 2 Scenario.failed_twice _
           failed_twice_reachable Hi Hsteps).
Defined.

Lemma mount_effect_failed_witness :
  fetchOnCreate Scenario.auto = true ∧
  started Sample.unreachable = None ∧
  pollInterval (mount_effect Scenario.auto
                  (mount Scenario.auto Sample.h Sample.unreachable))
  = fetchInterval Scenario.auto ∧
  status (mount_effect Scenario.auto
            (mount Scenario.auto Sample.h Sample.unreachable))
  = UseComDOMStatus.STOPPED.
Proof.
  assert (Hf : fetchOnCreate Scenario.auto = true) by reflexivity.
  assert (Hw : started Sample.unreachable = None) by reflexivity.
  split; [exact Hf|]. split; [exact Hw|].
  destruct (mount_effect_failed Scenario.auto Sample.h Sample.unreachable Hf Hw)
    as (H1 & H2 & _).
  split; [exact H1 | exact H2].
Defined.

Lemma start_twice_same_closure_witness :
  (start (render Sample.p (Sample.fresh Sample.unreachable)) None
     (Sample.fresh Sample.unreachable)).1 = Resolved false ∧
  (start (render Sample.p (Sample.fresh Sample.unreachable)) None
     (start (render Sample.p (Sample.fresh Sample.unreachable)) None
        (Sample.fresh Sample.unreachable)).2).1 = Resolved false ∧
  ∃ message1 cause1 message2 cause2,
    errors (start (render Sample.p (Sample.fresh Sample.unreachable)) None
              (Sample.fresh Sample.unreachable)).2
    = seen_errors (render Sample.p (Sample.fresh Sample.unreachable))
      ++ [ComDOMError.mk (errorId (Sample.fresh Sample.unreachable) + 1)
            message1 cause1] ∧
    errors (start (render Sample.p (Sample.fresh Sample.unreachable)) None
              (start (render Sample.p (Sample.fresh Sample.unreachable)) None
                 (Sample.fresh Sample.unreachable)).2).2
    = seen_errors (render Sample.p (Sample.fresh Sample.unreachable))
      ++ [ComDOMError.mk (errorId (Sample.fresh Sample.unreachable) + 2)
            message2 cause2].
Proof.
  assert (H1 : (start (render Sample.p (Sample.fresh Sample.unreachable)) None
                  (Sample.fresh Sample.unreachable)).1 = Resolved false)
    by reflexivity.
  assert (H2 : (start (render Sample.p (Sample.fresh Sample.unreachable)) None
                  (start (render Sample.p (Sample.fresh Sample.unreachable)) None
                     (Sample.fresh Sample.unreachable)).2).1 = Resolved false)
    by reflexivity.
  split; [exact H1|]. split; [exact H2|].
  exact (start_twice_same_closure _ None _ H1 H2).
Defined.

(** A rejection without a reason makes [start] itself reject, and nothing
    is reported. *)
Example start_reasonless :
  start (render Sample.p (Sample.fresh Scenario.reasonless)) None
    (Sample.fresh Scenario.reasonless)
  = (Rejected (ThrownError
                 "Cannot read properties of undefined (reading 'message')" None),
     Sample.fresh Scenario.reasonless).
Proof. reflexivity. Qed.

(** On a query client that refuses the call, [clean] returns false and the
    sink keeps its array. *)
Example clean_refused :
  (@clean nat (Script nat) refusing_client
     (render Sample.p Scenario.polled) Scenario.polled).1 = Returned false ∧
  sink (@clean nat (Script nat) refusing_client
          (render Sample.p Scenario.polled) Scenario.polled).2
  = sink Scenario.polled.
Proof. split; reflexivity. Qed.
